(** * BookServer: the assessment-results endpoint

    A shallow embedding of [bookserver/routers/assessment.py].  The module
    holds one coroutine, [get_assessment_results], which

    - asks the session layer whether the caller is an instructor,
    - fixes the [sid] attribute of the incoming request object in place,
    - asks the data layer for the last answer-table entry of that request,
    - answers with the empty string when the entry is falsy, and with the
      entry itself (after a debug log line) otherwise.

    The coroutine is sequential: each [await] is a call to a collaborator
    whose answer the coroutine waits for.  It is modelled in a small monad
    that threads the mutable request object, records every collaborator call
    in a trace and propagates exceptions.

    The second part embeds the fixtures of [test/conftest.py] that carry
    logic of their own: the retry loop that copies the test book, the loop
    that waits for the web server, the cleaning of the database, the helper
    that creates a test user and the rewriting of the database URL. *)

From Stdlib Require Import String List Bool ZArith Lia.
Import ListNotations.
Open Scope string_scope.

#[local] Set Warnings "-register-all".

(** ** Python values and truthiness *)

(** The values that cross the endpoint.  [PyObject] is an instance of a
    class that defines neither [__bool__] nor [__len__] (a schema or table
    row object): such an instance is always true. *)
Inductive PyValue : Type :=
| PyNone
| PyBool (b : bool)
| PyInt (z : Z)
| PyStr (s : string)
| PyList (items : list PyValue)
| PyDict (items : list (string * PyValue))
| PyObject (cls : string) (attrs : list (string * PyValue)).

Definition is_empty_str (s : string) : bool :=
  match s with
  | EmptyString => true
  | String _ _ => false
  end.

Definition is_empty_list {A : Type} (l : list A) : bool :=
  match l with
  | [] => true
  | _ :: _ => false
  end.

(** Python's truth value testing, the test behind [not x]. *)
Definition truthy (v : PyValue) : bool :=
  match v with
  | PyNone => false
  | PyBool b => b
  | PyInt z => negb (Z.eqb z 0)
  | PyStr s => negb (is_empty_str s)
  | PyList items => negb (is_empty_list items)
  | PyDict items => negb (is_empty_list items)
  | PyObject _ _ => true
  end.

Definition py_not (v : PyValue) : bool := negb (truthy v).

(** An [Optional[str]] attribute seen as a Python value. *)
Definition py_optional_str (o : option string) : PyValue :=
  match o with
  | None => PyNone
  | Some s => PyStr s
  end.

(** Modelled from the spec: [AnswerTableEntry], the record the data layer
    answers with when it holds an answer.  The schema and table modules lie
    outside this development; the spec has the data layer answer with an
    [AnswerTableEntry] or [None], the entry being an opaque record created
    by the data layer.  It is an instance of the answer table's class with
    its columns. *)
Record AnswerTableEntry : Type := mkAnswerTableEntry {
  entry_class : string;
  entry_columns : list (string * PyValue)
}.

(** An entry as the Python value it is. *)
Definition py_entry (E : AnswerTableEntry) : PyValue :=
  PyObject (entry_class E) (entry_columns E).

(** Exceptions a collaborator can raise. *)
Inductive PyException : Type :=
| HTTPException (status_code : nat)
| OtherException (cls : string).

(** ** The objects the coroutine receives *)

(** [schemas.AssessmentRequest].  The schema module lies outside this
    development; the fields are those the endpoint and its description
    name: the optional [sid], the component [div_id], the [course], and the
    remaining fields, which the endpoint never looks at. *)
Record AssessmentRequest : Type := mkAssessmentRequest {
  sid : option string;
  div_id : string;
  course : string;
  fields : list (string * PyValue)
}.

(** The assignment [request_data.sid = v]. *)
Definition setattr_sid (v : option string) (r : AssessmentRequest)
  : AssessmentRequest :=
  {| sid := v; div_id := div_id r; course := course r; fields := fields r |}.

(** The framework request: the coroutine reads
    [request.state.user.username] and nothing else. *)
Record User : Type := mkUser { username : string }.
Record State : Type := mkState { user : User }.
Record Request : Type := mkRequest { state : State }.

(** ** The handler monad *)

(** What an invocation does to the outside, in the order it does it. *)
Inductive Event : Type :=
| Await_is_instructor (request : Request)
| Await_fetch_last_answer_table_entry (query : AssessmentRequest)
| Debug (row : PyValue).

Inductive Outcome (A : Type) : Type :=
| Returned (a : A)
| Raised (e : PyException).

Arguments Returned {A} a.
Arguments Raised {A} e.

(** The request object is mutable and shared with the data layer call, so
    it lives in the threaded frame next to the trace. *)
Record Frame : Type := mkFrame {
  request_data : AssessmentRequest;
  trace : list Event
}.

Definition Handler (A : Type) : Type := Frame -> Outcome A * Frame.

Definition ret {A : Type} (a : A) : Handler A :=
  fun fr => (Returned a, fr).

Definition raise {A : Type} (e : PyException) : Handler A :=
  fun fr => (Raised e, fr).

Definition bind {A B : Type} (m : Handler A) (k : A -> Handler B)
  : Handler B :=
  fun fr =>
    match m fr with
    | (Returned a, fr') => k a fr'
    | (Raised e, fr') => (Raised e, fr')
    end.

Declare Scope handler_scope.
Delimit Scope handler_scope with handler.

Notation "x <- m ;; k" := (bind m (fun x => k))
  (at level 100, m at next level, right associativity) : handler_scope.
Notation "m ;;; k" := (bind m (fun _ => k))
  (at level 100, right associativity) : handler_scope.

Definition emit (ev : Event) : Handler unit :=
  fun fr =>
    (Returned tt,
     {| request_data := request_data fr; trace := trace fr ++ [ev] |}).

(** [await f(x)]: the call is recorded and its outcome, a value or an
    exception, becomes the outcome of the [await]. *)
Definition await {A B : Type} (ev : A -> Event) (f : A -> Outcome B) (x : A)
  : Handler B :=
  fun fr =>
    (f x, {| request_data := request_data fr; trace := trace fr ++ [ev x] |}).

Definition get_request_data : Handler AssessmentRequest :=
  fun fr => (Returned (request_data fr), fr).

Definition set_request_data_sid (v : option string) : Handler unit :=
  fun fr =>
    (Returned tt,
     {| request_data := setattr_sid v (request_data fr); trace := trace fr |}).

(** ** The endpoint *)

Section Endpoint.

(** The collaborators imported by the module: [session.is_instructor] and
    [crud.fetch_last_answer_table_entry]. *)
Variable is_instructor : Request -> Outcome bool.
Variable fetch_last_answer_table_entry : AssessmentRequest -> Outcome PyValue.

Local Open Scope handler_scope.

Definition get_assessment_results (request : Request) : Handler PyValue :=
  instructor <- await Await_is_instructor is_instructor request ;;
  (if instructor then
     rd <- get_request_data ;;
     if py_not (py_optional_str (sid rd)) then
       set_request_data_sid (Some (username (user (state request))))
     else ret tt
   else
     set_request_data_sid (Some (username (user (state request))))) ;;;
  query <- get_request_data ;;
  row <- await Await_fetch_last_answer_table_entry
           fetch_last_answer_table_entry query ;;
  if py_not row then ret (PyStr "")
  else (emit (Debug row) ;;; ret row).

(** One invocation: the framework hands the coroutine a fresh request
    object and nothing has happened yet. *)
Definition invoke (rd : AssessmentRequest) (request : Request)
  : Outcome PyValue * Frame :=
  get_assessment_results request {| request_data := rd; trace := [] |}.

Definition response (rd : AssessmentRequest) (request : Request)
  : Outcome PyValue :=
  fst (invoke rd request).

Definition events (rd : AssessmentRequest) (request : Request)
  : list Event :=
  trace (snd (invoke rd request)).

(** Modelled from the spec: the authentication layer, which belongs to the
    session module and the framework and lies outside this development.
    The identity context provider supplies the caller's identity;
    when there is none the operation fails upstream with [Unauthorized]
    (HTTP 401) before any other logic runs. *)
Definition authentication_layer (identity : option User) : Handler Request :=
  match identity with
  | None => raise (HTTPException 401)
  | Some u => ret {| state := {| user := u |} |}
  end.

(** [POST /assessment/results] as the router serves it. *)
Definition post_results (identity : option User) : Handler PyValue :=
  request <- authentication_layer identity ;;
  get_assessment_results request.

End Endpoint.

(** ** Reading a trace *)

Definition store_lookups (tr : list Event) : list AssessmentRequest :=
  flat_map (fun ev =>
              match ev with
              | Await_fetch_last_answer_table_entry q => [q]
              | _ => []
              end) tr.

Definition identity_checks (tr : list Event) : list Request :=
  flat_map (fun ev =>
              match ev with
              | Await_is_instructor r => [r]
              | _ => []
              end) tr.

(** The shapes a trace of one invocation can have. *)
Inductive TraceShape (request : Request) : list Event -> Prop :=
| identity_check_raised :
    TraceShape request [Await_is_instructor request]
| no_row_returned q :
    TraceShape request
      [Await_is_instructor request; Await_fetch_last_answer_table_entry q]
| row_returned q row :
    TraceShape request
      [Await_is_instructor request; Await_fetch_last_answer_table_entry q;
       Debug row].

(** ** A small course, for running the endpoint *)

Module Demo.

Definition prof1 : Request :=
  {| state := {| user := {| username := "prof1" |} |} |}.
Definition stu2 : Request :=
  {| state := {| user := {| username := "stu2" |} |} |}.

(** "prof1" teaches the course; everybody else is a student. *)
Definition is_instructor (request : Request) : Outcome bool :=
  Returned (String.eqb (username (user (state request))) "prof1").

Definition stu1_answer : PyValue :=
  PyObject "MchoiceAnswers"
    [("sid", PyStr "stu1"); ("div_id", PyStr "q1");
     ("course_name", PyStr "cs101"); ("answer", PyStr "2");
     ("correct", PyBool true)].

(** The answer table holds one row, the answer of "stu1" to "q1". *)
Definition fetch_last_answer_table_entry (q : AssessmentRequest)
  : Outcome PyValue :=
  match sid q with
  | Some s =>
      if String.eqb s "stu1" && String.eqb (div_id q) "q1"
         && String.eqb (course q) "cs101"
      then Returned stu1_answer
      else Returned PyNone
  | None => Returned PyNone
  end.

(** A data layer that answers every query with an empty mapping. *)
Definition fetch_empty_record (q : AssessmentRequest) : Outcome PyValue :=
  Returned (PyDict []).

Definition ask (s : option string) : AssessmentRequest :=
  {| sid := s; div_id := "q1"; course := "cs101";
     fields := [("event", PyStr "mChoice")] |}.

End Demo.

(** ** Failing collaborators, for running the endpoint's error paths *)

Module Outage.

(** A session layer that turns every caller away. *)
Definition is_instructor (request : Request) : Outcome bool :=
  Raised (HTTPException 401).

(** A data layer that has lost its database. *)
Definition fetch_last_answer_table_entry (q : AssessmentRequest)
  : Outcome PyValue :=
  Raised (OtherException "OperationalError").

End Outage.

(** * The test fixtures, [test/conftest.py]

    The fixtures talk to the file system, the network and the database.
    Each such call is an [Effect]; what the outside answers may depend on
    everything done so far, so a [World] maps the trace of the effects
    already performed and the next effect to its outcome. *)

Module Conftest.

(** ** Strings: [str.split()], [str.join], [str.replace] *)

(** [str.isspace] on one character, for the code points below 256. *)
Definition py_isspace (c : Ascii.ascii) : bool :=
  let n := Ascii.nat_of_ascii c in
  (((9 <=? n) && (n <=? 13)) || ((28 <=? n) && (n <=? 32))
   || (n =? 133) || (n =? 160))%nat.

(** [s.split()]: the words of [s] between runs of whitespace; [cur] is the
    word being read. *)
Fixpoint py_split_from (cur s : string) : list string :=
  match s with
  | EmptyString => if is_empty_str cur then [] else [cur]
  | String c rest =>
      if py_isspace c then
        if is_empty_str cur then py_split_from EmptyString rest
        else cur :: py_split_from EmptyString rest
      else py_split_from (cur ++ String c EmptyString) rest
  end.

Definition py_split (s : string) : list string := py_split_from EmptyString s.

(** [sep.join(words)]. *)
Fixpoint py_join (sep : string) (words : list string) : string :=
  match words with
  | [] => EmptyString
  | [w] => w
  | w :: rest => w ++ sep ++ py_join sep rest
  end.

(** [s.replace(old, new)] for a non-empty [old]: the occurrences of [old]
    are found from the left and do not overlap; [skip] counts the characters
    of a found occurrence that are still to be passed over. *)
Fixpoint py_replace_from (old new : string) (skip : nat) (s : string)
  : string :=
  match s with
  | EmptyString => EmptyString
  | String c rest =>
      match skip with
      | S k => py_replace_from old new k rest
      | O =>
          if String.prefix old s
          then new ++ py_replace_from old new (String.length old - 1) rest
          else String c (py_replace_from old new 0 rest)
      end
  end.

(** With an empty [old], [new] goes before every character and at the
    end. *)
Fixpoint py_intersperse (new s : string) : string :=
  match s with
  | EmptyString => new
  | String c rest => new ++ String c (py_intersperse new rest)
  end.

Definition py_replace (old new s : string) : string :=
  if is_empty_str old then py_intersperse new s
  else py_replace_from old new 0 s.

(** ** Keyword arguments *)

(** A [**kwargs] dictionary: keys in insertion order. *)
Definition dict : Type := list (string * PyValue).

Fixpoint dict_get (k : string) (d : dict) : option PyValue :=
  match d with
  | [] => None
  | (k', v) :: rest => if String.eqb k k' then Some v else dict_get k rest
  end.

(** [d.pop(k)]: the value under [k] and the dictionary without the key, or
    nothing (a [KeyError]) when the key is missing. *)
Fixpoint dict_pop (k : string) (d : dict) : option (PyValue * dict) :=
  match d with
  | [] => None
  | (k', v) :: rest =>
      if String.eqb k k' then Some (v, rest)
      else match dict_pop k rest with
           | Some (x, rest') => Some (x, (k', v) :: rest')
           | None => None
           end
  end.

(** ** Effects and the fixture monad *)

Inductive Effect : Type :=
| Print (s : string)
| PrintException (e : PyException)
| Copytree (src dst : string)
| Urlopen (url : string) (timeout : Z)
| Aenter_engine_begin
| Aexit_engine_begin (exc : option PyException)
| Execute (sql : string)
| Call_AuthUserValidator (kwargs : dict)
| Await_create_user (user : PyValue)
| Call_TestAuthUserValidator (kwargs : dict).

Definition World : Type := list Effect -> Effect -> Outcome PyValue.

Definition Fixture (A : Type) : Type := list Effect -> Outcome A * list Effect.

Definition ret {A : Type} (a : A) : Fixture A :=
  fun tr => (Returned a, tr).

Definition raise {A : Type} (e : PyException) : Fixture A :=
  fun tr => (Raised e, tr).

Definition bind {A B : Type} (m : Fixture A) (k : A -> Fixture B)
  : Fixture B :=
  fun tr =>
    match m tr with
    | (Returned a, tr') => k a tr'
    | (Raised e, tr') => (Raised e, tr')
    end.

(** [try: body / except <classes>: handler]: the handler runs for the
    exceptions the clause matches, the others pass through. *)
Definition try_except {A : Type} (body : Fixture A)
  (matches : PyException -> bool) (handler : PyException -> Fixture A)
  : Fixture A :=
  fun tr =>
    match body tr with
    | (Returned a, tr') => (Returned a, tr')
    | (Raised e, tr') =>
        if matches e then handler e tr' else (Raised e, tr')
    end.

(** [print(...)]: recorded, and taken not to fail. *)
Definition print (s : string) : Fixture unit :=
  fun tr => (Returned tt, (tr ++ [Print s])%list).

Definition print_exception (e : PyException) : Fixture unit :=
  fun tr => (Returned tt, (tr ++ [PrintException e])%list).

(** How the body of a [for] loop ends. *)
Inductive LoopStep : Type := Break | Continue.

(** [for x in xs: body / else: orelse]: the [else] suite runs when the
    loop runs out of items, not when it is left by [break]. *)
Fixpoint for_in {A : Type} (xs : list A) (body : A -> Fixture LoopStep)
  (orelse : Fixture unit) : Fixture unit :=
  match xs with
  | [] => orelse
  | x :: rest =>
      bind (body x)
           (fun step =>
              match step with
              | Break => ret tt
              | Continue => for_in rest body orelse
              end)
  end.

Definition range (n : nat) : list nat := seq 0 n.

Declare Scope fixture_scope.
Delimit Scope fixture_scope with fixture.

Notation "x <- m ;; k" := (bind m (fun x => k))
  (at level 100, m at next level, right associativity) : fixture_scope.
Notation "m ;;; k" := (bind m (fun _ => k))
  (at level 100, right associativity) : fixture_scope.

Section Fixtures.

Variable world : World.

(** [isinstance(e, cls)], the test behind an [except cls] clause; the class
    hierarchy is the interpreter's and the libraries'. *)
Variable isinstance : PyException -> string -> bool.

(** [settings.book_path], [settings.web2py_path], [settings.database_url]
    and the outcome of [settings.database_type == DatabaseType.PostgreSQL]. *)
Variable book_path web2py_path : string.
Variable database_is_postgresql : bool.

Local Open Scope fixture_scope.

(** A call to the outside: recorded, and answered by the world. *)
Definition perform (c : Effect) : Fixture PyValue :=
  fun tr => (world tr c, (tr ++ [c])%list).

(** *** [run_bookserver]: copying the test book, with retries *)

Definition test_book_path : string := book_path ++ "/test_course_1".

Definition copy_test_book : Fixture unit :=
  for_in (range 100)
    (fun retry =>
       try_except
         (perform (Copytree (web2py_path ++ "/tests/test_course_1")
                            test_book_path) ;;;
          ret Break)
         (fun e => isinstance e "OSError")
         (fun e => if Nat.eqb retry 99 then raise e else ret Continue))
    (ret tt).

(** *** [run_bookserver]: the database URL for the book build *)

Definition sync_dburl (database_url : string) : string :=
  py_replace "+aiosqlite" "" (py_replace "+asyncpg" "" database_url).

(** *** [run_bookserver]: waiting for the web server *)

Definition wait_for_webserver (bookserver_address : string) : Fixture unit :=
  print "Waiting for the webserver to come up..." ;;;
  for_in (range 10)
    (fun tries =>
       try_except
         (perform (Urlopen bookserver_address 1) ;;;
          ret Break)
         (fun e => isinstance e "URLError")
         (fun e => print_exception e ;;; ret Continue))
    (print "Failure, server not up.") ;;;
  print ("done." ++ String (Ascii.ascii_of_nat 10) "").

(** *** [bookserver_session]: a clean database before a test *)

Definition tables_to_delete_text : string :=
"
        assignment_questions
        assignments
        auth_cas
        auth_event
        auth_group
        auth_membership
        auth_permission
        auth_user
        clickablearea_answers
        code
        codelens_answers
        course_attributes
        course_instructor
        course_practice
        courses
        dragndrop_answers
        fitb_answers
        grades
        lp_answers
        invoice_request
        lti_keys
        mchoice_answers
        parsons_answers
        payments
        practice_grades
        question_grades
        question_tags
        shortanswer_answers
        sub_chapter_taught
        tags
        timed_exam
        useinfo
        user_biography
        user_chapter_progress
        user_courses
        user_state
        user_sub_chapter_progress
        user_topic_practice
        user_topic_practice_completion
        user_topic_practice_feedback
        user_topic_practice_log
        user_topic_practice_survey
        web2py_session_runestone
        ".

Definition tables_to_delete : list string := py_split tables_to_delete_text.

(** [async with cm as conn: body]: [__aenter__], the body, then [__aexit__]
    with the exception of the body, if any; a truthy answer of [__aexit__]
    swallows that exception. *)
Definition async_with_engine_begin (body : Fixture unit) : Fixture unit :=
  perform Aenter_engine_begin ;;;
  (fun tr =>
     match body tr with
     | (Returned _, tr') =>
         (perform (Aexit_engine_begin None) ;;; ret tt) tr'
     | (Raised e, tr') =>
         (swallow <- perform (Aexit_engine_begin (Some e)) ;;
          if truthy swallow then ret tt else raise e) tr'
     end).

Definition truncate_tables (tables_to_delete : list string) : Fixture unit :=
  let tables := py_join ", " tables_to_delete in
  perform (Execute ("TRUNCATE " ++ tables ++ " CASCADE;")) ;;; ret tt.

Definition delete_from_tables (tables_to_delete : list string)
  : Fixture unit :=
  for_in tables_to_delete
    (fun table =>
       print table ;;;
       try_except
         (perform (Execute ("DELETE FROM " ++ table ++ ";")) ;;; ret tt)
         (fun e => isinstance e "Exception")
         (fun e => print_exception e) ;;;
       ret Continue)
    (ret tt).

(** The fixture up to its [yield]: when it returns, the test runs. *)
Definition bookserver_session : Fixture unit :=
  async_with_engine_begin
    (if database_is_postgresql then truncate_tables tables_to_delete
     else delete_from_tables tables_to_delete).

(** *** [create_test_user] *)

Definition _create_test_user (kwargs : dict) : Fixture PyValue :=
  match dict_pop "course" kwargs with
  | None => raise (OtherException "KeyError")
  | Some (course, kwargs) =>
      user <- perform (Call_AuthUserValidator kwargs) ;;
      created <- perform (Await_create_user user) ;;
      if py_not created then raise (OtherException "AssertionError")
      else perform (Call_TestAuthUserValidator (("course", course) :: kwargs))
  end.

End Fixtures.

(** ** Reading a fixture trace *)

Definition copytree_calls (tr : list Effect) : nat :=
  length (filter (fun c => match c with Copytree _ _ => true | _ => false end)
            tr).

Definition urlopen_calls (tr : list Effect) : nat :=
  length (filter (fun c => match c with Urlopen _ _ => true | _ => false end)
            tr).

Definition executed (tr : list Effect) : list string :=
  flat_map (fun c => match c with Execute sql => [sql] | _ => [] end) tr.

(** ** Sample worlds *)

(** The proper base classes, nearest first and up to [Exception], of the
    exception classes of the interpreter and of [urllib] and [shutil] that
    the fixtures can meet; a class that is not listed is taken to derive
    from [Exception] directly. *)
Definition sample_bases (c : string) : list string :=
  if existsb (String.eqb c)
       ["KeyboardInterrupt"; "SystemExit"; "GeneratorExit"; "CancelledError";
        "BaseException"]
  then []
  else if String.eqb c "HTTPError" then ["URLError"; "OSError"; "Exception"]
  else if existsb (String.eqb c)
            ["ConnectionRefusedError"; "ConnectionResetError";
             "ConnectionAbortedError"; "BrokenPipeError"]
  then ["ConnectionError"; "OSError"; "Exception"]
  else if existsb (String.eqb c)
            ["URLError"; "Error"; "FileExistsError"; "FileNotFoundError";
             "PermissionError"; "TimeoutError"; "ConnectionError";
             "IsADirectoryError"; "NotADirectoryError"; "InterruptedError";
             "BlockingIOError"; "ChildProcessError"; "ProcessLookupError"]
  then ["OSError"; "Exception"]
  else if String.eqb c "Exception" then []
  else ["Exception"].

(** [isinstance(e, cls)] over these classes. *)
Definition sample_isinstance (e : PyException) (cls : string) : bool :=
  String.eqb cls "BaseException"
  || match e with
     | HTTPException _ =>
         String.eqb cls "HTTPException" || String.eqb cls "Exception"
     | OtherException c =>
         String.eqb cls c || existsb (String.eqb cls) (sample_bases c)
     end.

(** A file system that lets [copytree] through at the third attempt. *)
Definition third_time_lucky : World :=
  fun tr c =>
    match c with
    | Copytree _ _ =>
        if Nat.ltb (copytree_calls tr) 2
        then Raised (OtherException "FileExistsError")
        else Returned PyNone
    | _ => Returned PyNone
    end.

(** Nothing works: every call outside fails in its own way. *)
Definition all_down : World :=
  fun tr c =>
    match c with
    | Copytree _ _ => Raised (OtherException "FileExistsError")
    | Urlopen _ _ => Raised (OtherException "URLError")
    | Execute _ => Raised (OtherException "OperationalError")
    | Await_create_user _ => Returned (PyBool false)
    | _ => Returned PyNone
    end.

(** A run that is interrupted from the keyboard at the first copy. *)
Definition interrupted : World :=
  fun tr c =>
    match c with
    | Copytree _ _ => Raised (OtherException "KeyboardInterrupt")
    | _ => Returned PyNone
    end.

(** Everything works. *)
Definition all_up : World :=
  fun tr c =>
    match c with
    | Call_AuthUserValidator kwargs =>
        Returned (PyObject "AuthUserValidator" kwargs)
    | Call_TestAuthUserValidator kwargs =>
        Returned (PyObject "TestAuthUserValidator" kwargs)
    | Await_create_user user => Returned user
    | _ => Returned PyNone
    end.

End Conftest.

(** ** Truthiness facts *)

Lemma py_not_optional_str_absent_or_empty (o : option string) :
  py_not (py_optional_str o) = true <-> o = None \/ o = Some "".
Proof.
  destruct o as [[|c s]|]; cbn; split; intros H; auto.
  - discriminate H.
  - destruct H as [H|H]; discriminate H.
Qed.

Lemma py_not_optional_str_given (s : string) :
  s <> "" -> py_not (py_optional_str (Some s)) = false.
Proof.
  destruct s as [|c s]; cbn; [intros H; now elim H | reflexivity].
Qed.

Lemma py_not_false_iff (v : PyValue) : py_not v = false <-> truthy v = true.
Proof. unfold py_not. destruct (truthy v); cbn; split; congruence. Qed.

(** ** Truthiness of the values a data layer can answer with *)

Example falsy_values :
  truthy PyNone = false /\ truthy (PyStr "") = false
  /\ truthy (PyDict []) = false /\ truthy (PyList []) = false
  /\ truthy (PyInt 0) = false /\ truthy (PyBool false) = false.
Proof. repeat split. Qed.

Example truthy_values :
  truthy Demo.stu1_answer = true /\ truthy (PyObject "Row" []) = true
  /\ truthy (PyDict [("answer", PyStr "")]) = true
  /\ truthy (PyStr "0") = true.
Proof. repeat split. Qed.

(** ** One invocation, step by step *)

Section Invocation.

Variable is_instructor : Request -> Outcome bool.
Variable fetch_last_answer_table_entry : AssessmentRequest -> Outcome PyValue.

#[local] Abbreviation invoke :=
  (invoke is_instructor fetch_last_answer_table_entry).
#[local] Abbreviation response :=
  (response is_instructor fetch_last_answer_table_entry).
#[local] Abbreviation events :=
  (events is_instructor fetch_last_answer_table_entry).

(** When the identity check raises, the exception is the outcome; the
    request object is untouched and the data layer is never called. *)
Lemma invoke_identity_check_raises rd request e :
  is_instructor request = Raised e ->
  invoke rd request =
    (Raised e,
     {| request_data := rd; trace := [Await_is_instructor request] |}).
Proof.
  intros H. unfold invoke, get_assessment_results, bind, await. cbn.
  rewrite H. reflexivity.
Qed.

(** The request object after the branch on the identity check. *)
Lemma invoke_identity_check_returns rd request b :
  is_instructor request = Returned b ->
  exists q,
    q = (if b
         then if py_not (py_optional_str (sid rd))
              then setattr_sid (Some (username (user (state request)))) rd
              else rd
         else setattr_sid (Some (username (user (state request)))) rd)
    /\ invoke rd request =
         match fetch_last_answer_table_entry q with
         | Raised e =>
             (Raised e,
              {| request_data := q;
                 trace := [Await_is_instructor request;
                           Await_fetch_last_answer_table_entry q] |})
         | Returned row =>
             if py_not row
             then (Returned (PyStr ""),
                   {| request_data := q;
                      trace := [Await_is_instructor request;
                                Await_fetch_last_answer_table_entry q] |})
             else (Returned row,
                   {| request_data := q;
                      trace := [Await_is_instructor request;
                                Await_fetch_last_answer_table_entry q;
                                Debug row] |})
         end.
Proof.
  intros H. eexists. split; [reflexivity|].
  unfold invoke, get_assessment_results, bind, await. cbn.
  rewrite H.
  destruct b; cbn.
  - destruct (py_not (py_optional_str (sid rd))); cbn;
      match goal with
      | |- context [fetch_last_answer_table_entry ?q] =>
          destruct (fetch_last_answer_table_entry q) as [row|e]; cbn;
          [destruct (py_not row); reflexivity | reflexivity]
      end.
  - match goal with
    | |- context [fetch_last_answer_table_entry ?q] =>
        destruct (fetch_last_answer_table_entry q) as [row|e]; cbn;
        [destruct (py_not row); reflexivity | reflexivity]
    end.
Qed.

(** The store is looked up exactly when the identity check returns, and
    then once, with the request object as the branch left it. *)
Lemma store_lookups_identity_check_returns rd request b :
  is_instructor request = Returned b ->
  store_lookups (events rd request) =
    [if b
     then if py_not (py_optional_str (sid rd))
          then setattr_sid (Some (username (user (state request)))) rd
          else rd
     else setattr_sid (Some (username (user (state request)))) rd].
Proof.
  intros H. unfold events.
  destruct (invoke_identity_check_returns rd request b H) as (q & -> & ->).
  match goal with
  | |- context [fetch_last_answer_table_entry ?q] =>
      destruct (fetch_last_answer_table_entry q) as [row|e];
      [destruct (py_not row)|]; reflexivity
  end.
Qed.

Lemma store_lookups_identity_check_raises rd request e :
  is_instructor request = Raised e ->
  store_lookups (events rd request) = [].
Proof.
  intros H. unfold events.
  rewrite (invoke_identity_check_raises rd request e H). reflexivity.
Qed.

(** What the invocation answers once the store was looked up with [q]. *)
Lemma response_after_lookup rd request q :
  store_lookups (events rd request) = [q] ->
  response rd request =
    match fetch_last_answer_table_entry q with
    | Raised e => Raised e
    | Returned row => if py_not row then Returned (PyStr "") else Returned row
    end
  /\ (forall row, In (Debug row) (events rd request) <->
                  fetch_last_answer_table_entry q = Returned row
                  /\ py_not row = false).
Proof.
  unfold response, events.
  destruct (is_instructor request) as [b|e] eqn:Hi.
  - destruct (invoke_identity_check_returns rd request b Hi) as (q' & _ & ->).
    destruct (fetch_last_answer_table_entry q') as [row|e] eqn:Hf.
    + destruct (py_not row) eqn:Hn; cbn; intros Hq; injection Hq as <-;
        rewrite Hf, ?Hn; (split; [reflexivity|]); intros row'; split.
      * intros [H|[H|[]]]; discriminate H.
      * intros [H1 H2]. injection H1 as <-. congruence.
      * intros [H|[H|[H|[]]]]; try discriminate H.
        injection H as <-. auto.
      * intros [H1 _]. injection H1 as <-. right; right; left; reflexivity.
    + cbn. intros Hq; injection Hq as <-. rewrite Hf.
      split; [reflexivity|]. intros row'; split.
      * intros [H|[H|[]]]; discriminate H.
      * intros [H _]. discriminate H.
  - rewrite (invoke_identity_check_raises rd request e Hi). cbn.
    intros H; discriminate H.
Qed.

Lemma events_shape rd request : TraceShape request (events rd request).
Proof.
  unfold events.
  destruct (is_instructor request) as [b|e] eqn:Hi.
  - destruct (invoke_identity_check_returns rd request b Hi) as (q & _ & ->).
    destruct (fetch_last_answer_table_entry q) as [row|e];
      [destruct (py_not row)|]; cbn; constructor.
  - rewrite (invoke_identity_check_raises rd request e Hi). constructor.
Qed.

(** An invocation looks the store up at most once. *)
Lemma store_lookups_unique rd request q :
  In q (store_lookups (events rd request)) ->
  store_lookups (events rd request) = [q].
Proof.
  destruct (is_instructor request) as [b|e] eqn:Hi.
  - rewrite (store_lookups_identity_check_returns rd request b Hi).
    intros [<-|[]]. reflexivity.
  - rewrite (store_lookups_identity_check_raises rd request e Hi).
    intros [].
Qed.

(** The request object the store sees differs from the incoming one in
    [sid] at most. *)
Lemma lookup_is_setattr_sid rd request q :
  In q (store_lookups (events rd request)) ->
  q = setattr_sid (sid q) rd.
Proof.
  destruct (is_instructor request) as [b|e] eqn:Hi.
  - rewrite (store_lookups_identity_check_returns rd request b Hi).
    intros [<-|[]].
    destruct b; [destruct (py_not (py_optional_str (sid rd)))|];
      try reflexivity.
    destruct rd; reflexivity.
  - rewrite (store_lookups_identity_check_raises rd request e Hi).
    intros [].
Qed.

(** ** The contract of the endpoint *)

(** C1 (non-instructor override).  When the identity check answers false,
    the store is looked up once, with [sid] equal to the caller's username,
    whatever [sid] the client sent (absent, empty, the caller's own or
    somebody else's); the [sid] of the request object is overwritten. *)
Theorem non_instructor_override rd request :
  is_instructor request = Returned false ->
  map sid (store_lookups (events rd request))
    = [Some (username (user (state request)))]
  /\ sid (request_data (snd (invoke rd request)))
       = Some (username (user (state request))).
Proof.
  intros Hi. split.
  - rewrite (store_lookups_identity_check_returns rd request false Hi).
    reflexivity.
  - destruct (invoke_identity_check_returns rd request false Hi)
      as (q & -> & ->).
    match goal with
    | |- context [fetch_last_answer_table_entry ?q] =>
        destruct (fetch_last_answer_table_entry q) as [row|e];
        [destruct (py_not row)|]; reflexivity
    end.
Qed.

(** C2 (instructor default).  When the identity check answers true and the
    request carries no [sid] or an empty one, the store is looked up with
    [sid] equal to the caller's username. *)
Theorem instructor_default rd request :
  is_instructor request = Returned true ->
  sid rd = None \/ sid rd = Some "" ->
  map sid (store_lookups (events rd request))
    = [Some (username (user (state request)))].
Proof.
  intros Hi Hs.
  rewrite (store_lookups_identity_check_returns rd request true Hi).
  apply py_not_optional_str_absent_or_empty in Hs. rewrite Hs. reflexivity.
Qed.

(** C3 (instructor override).  When the identity check answers true and the
    request carries a non-empty [sid] S, the store is looked up with [sid]
    equal to S: the request object reaches the data layer as it came. *)
Theorem instructor_override rd request S :
  is_instructor request = Returned true ->
  sid rd = Some S ->
  S <> "" ->
  map sid (store_lookups (events rd request)) = [Some S]
  /\ store_lookups (events rd request) = [rd].
Proof.
  intros Hi Hs HS.
  rewrite (store_lookups_identity_check_returns rd request true Hi).
  rewrite Hs, (py_not_optional_str_given S HS). cbn. rewrite Hs. auto.
Qed.

(** C4 (pass-through fidelity).  When the data layer answers the lookup
    with an entry E, the invocation returns E itself: nothing is computed
    from it, added to it or taken from it, and nothing happens besides the
    identity check, the lookup and the debug line for E. *)
Theorem pass_through_fidelity rd request q (E : AnswerTableEntry) :
  In q (store_lookups (events rd request)) ->
  fetch_last_answer_table_entry q = Returned (py_entry E) ->
  response rd request = Returned (py_entry E)
  /\ events rd request
     = [Await_is_instructor request; Await_fetch_last_answer_table_entry q;
        Debug (py_entry E)].
Proof.
  intros Hq Hf. pose proof (store_lookups_unique rd request q Hq) as Hone.
  unfold response, events in *.
  destruct (is_instructor request) as [b|e] eqn:Hi.
  - destruct (invoke_identity_check_returns rd request b Hi)
      as (q' & _ & Hinv).
    rewrite Hinv in *.
    assert (q' = q) as ->.
    { destruct (fetch_last_answer_table_entry q') as [row|e'];
        [destruct (py_not row)|]; cbn in Hone; congruence. }
    rewrite Hf. split; reflexivity.
  - rewrite (invoke_identity_check_raises rd request e Hi) in Hq.
    destruct Hq.
Qed.

(** C5 (no-match pass-through).  When the data layer answers the lookup
    with [None], the invocation returns the empty string: it raises nothing
    (so no 404 or other error status) and it does not return [None]. *)
Theorem no_match_pass_through rd request q :
  In q (store_lookups (events rd request)) ->
  fetch_last_answer_table_entry q = Returned PyNone ->
  response rd request = Returned (PyStr "")
  /\ (forall e, response rd request <> Raised e)
  /\ response rd request <> Returned PyNone.
Proof.
  intros Hq Hf.
  apply store_lookups_unique in Hq.
  destruct (response_after_lookup rd request q Hq) as [-> _].
  rewrite Hf. cbn. repeat split; intros; discriminate.
Qed.

(** C6 (invariant of subject resolution).  When the caller's username is
    not empty and the identity check has answered, subject resolution leaves
    the request object with a non-empty [sid], and it is with this [sid],
    and the request otherwise as it came, that the store is looked up, once;
    the [sid] is the caller's username or, for an instructor only, the [sid]
    the request named.  No other request object ever reaches the store. *)
Theorem resolved_sid_invariant rd request :
  username (user (state request)) <> "" ->
  (forall b,
     is_instructor request = Returned b ->
     exists s,
       s <> ""
       /\ store_lookups (events rd request) = [setattr_sid (Some s) rd]
       /\ sid (request_data (snd (invoke rd request))) = Some s
       /\ (s = username (user (state request))
           \/ (b = true /\ sid rd = Some s)))
  /\ (forall q,
        In q (store_lookups (events rd request)) ->
        exists s,
          sid q = Some s /\ s <> ""
          /\ (s = username (user (state request))
              \/ (is_instructor request = Returned true
                  /\ sid rd = Some s))).
Proof.
  intros Hu.
  assert (Hres : forall b,
             is_instructor request = Returned b ->
             exists s,
               s <> ""
               /\ store_lookups (events rd request)
                  = [setattr_sid (Some s) rd]
               /\ sid (request_data (snd (invoke rd request))) = Some s
               /\ (s = username (user (state request))
                   \/ (b = true /\ sid rd = Some s))).
  { intros b Hi.
    rewrite (store_lookups_identity_check_returns rd request b Hi).
    destruct (invoke_identity_check_returns rd request b Hi)
      as (q & Hq & ->).
    assert (Hfinal : forall (o : Outcome PyValue * Frame),
               o = match fetch_last_answer_table_entry q with
                   | Raised e =>
                       (Raised e,
                        {| request_data := q;
                           trace := [Await_is_instructor request;
                                     Await_fetch_last_answer_table_entry q] |})
                   | Returned row =>
                       if py_not row
                       then (Returned (PyStr ""),
                             {| request_data := q;
                                trace := [Await_is_instructor request;
                                          Await_fetch_last_answer_table_entry
                                            q] |})
                       else (Returned row,
                             {| request_data := q;
                                trace := [Await_is_instructor request;
                                          Await_fetch_last_answer_table_entry
                                            q;
                                          Debug row] |})
                   end ->
               request_data (snd o) = q).
    { intros o ->. destruct (fetch_last_answer_table_entry q) as [row|e];
        [destruct (py_not row)|]; reflexivity. }
    rewrite (Hfinal _ eq_refl). clear Hfinal. rewrite <- Hq.
    destruct b.
    - destruct (py_not (py_optional_str (sid rd))) eqn:Hn.
      + exists (username (user (state request))). subst q. cbn. auto.
      + destruct (sid rd) as [[|c s]|] eqn:Hs; try discriminate Hn.
        exists (String c s).
        assert (q = setattr_sid (Some (String c s)) rd) as Hsame
          by (subst q; rewrite <- Hs; destruct rd; reflexivity).
        rewrite Hsame. cbn. repeat split; auto. discriminate.
    - exists (username (user (state request))). subst q. cbn. auto. }
  split; [exact Hres|].
  intros q Hq.
  destruct (is_instructor request) as [b|e] eqn:Hi.
  - destruct (Hres b eq_refl) as (s & Hs & Hl & _ & Hwho).
    rewrite Hl in Hq. destruct Hq as [<-|[]].
    exists s. split; [reflexivity|]. split; [exact Hs|].
    destruct Hwho as [Hw|[-> Hw]]; auto.
  - rewrite (store_lookups_identity_check_raises rd request e Hi) in Hq.
    destruct Hq.
Qed.

(** C7 (unauthenticated rejection).  A request without an identity context
    fails with HTTP 401 at once: no identity check and no store lookup is
    recorded and the request object is left as it came. *)
Theorem unauthenticated_rejection fr :
  post_results is_instructor fetch_last_answer_table_entry None fr
    = (Raised (HTTPException 401), fr)
  /\ identity_checks
       (trace (snd (post_results is_instructor fetch_last_answer_table_entry
                      None {| request_data := request_data fr; trace := [] |})))
     = []
  /\ store_lookups
       (trace (snd (post_results is_instructor fetch_last_answer_table_entry
                      None {| request_data := request_data fr; trace := [] |})))
     = [].
Proof. repeat split. Qed.

(** C8 (one check, then one lookup).  An invocation asks the identity
    question at most once and looks the store up at most once; a lookup comes
    after the identity check and nothing is looked up before or after it. *)
Theorem one_check_then_one_lookup rd request :
  length (identity_checks (events rd request)) <= 1
  /\ length (store_lookups (events rd request)) <= 1
  /\ (forall before q after,
        events rd request
          = (before ++ Await_fetch_last_answer_table_entry q :: after)%list ->
        identity_checks before = [request]
        /\ store_lookups before = []
        /\ identity_checks after = []
        /\ store_lookups after = []).
Proof.
  destruct (events_shape rd request) as [|q0|q0 row0]; cbn;
    (split; [lia|]); (split; [lia|]); intros before q after H;
    repeat (destruct before as [|? before]; cbn in H; try discriminate H);
    injection H as <- <- <-; repeat split.
Qed.

(** C9 (falsy rows).  Whatever falsy value the data layer answers with,
    [None] or an empty mapping or list among them, the invocation returns
    the empty string and never reaches the pass-through return; a truthy row
    is returned as it is, after the debug line.  The response can coincide
    with a falsy row only when that row is the empty string itself. *)
Theorem falsy_row_gives_empty_string rd request q row :
  In q (store_lookups (events rd request)) ->
  fetch_last_answer_table_entry q = Returned row ->
  (truthy row = false ->
     response rd request = Returned (PyStr "")
     /\ forall r, ~ In (Debug r) (events rd request))
  /\ (truthy row = true ->
        response rd request = Returned row
        /\ In (Debug row) (events rd request))
  /\ (response rd request = Returned row ->
        truthy row = true \/ row = PyStr "").
Proof.
  intros Hq Hf.
  apply store_lookups_unique in Hq.
  destruct (response_after_lookup rd request q Hq) as [-> Hd].
  rewrite Hf. unfold py_not in *. destruct (truthy row) eqn:Ht; cbn.
  - split; [intros H; discriminate H|]. split; [|auto].
    intros _. split; [reflexivity|]. apply Hd. rewrite Ht. auto.
  - split.
    + intros _. split; [reflexivity|]. intros r Hr. apply Hd in Hr.
      destruct Hr as [Hr1 Hr2]. rewrite Hf in Hr1. injection Hr1 as <-.
      rewrite Ht in Hr2. discriminate Hr2.
    + split; [intros H; discriminate H|]. intros H. injection H as <-. auto.
Qed.

(** C10 (frame of subject resolution).  The request object that reaches
    the data layer is the incoming one with [sid] assigned and nothing else
    touched: [div_id], [course] and the remaining fields are the client's. *)
Theorem resolution_touches_only_sid rd request q :
  In q (store_lookups (events rd request)) ->
  div_id q = div_id rd /\ course q = course rd /\ fields q = fields rd
  /\ q = setattr_sid (sid q) rd.
Proof.
  intros Hq. pose proof (lookup_is_setattr_sid rd request q Hq) as E.
  repeat split; try exact E; rewrite E; reflexivity.
Qed.

End Invocation.

(** ** The contract on the small course *)

(** The student "stu2" asks for the answer of "stu1" and is looked up
    under their own name. *)
Lemma non_instructor_override_witness :
  Demo.is_instructor Demo.stu2 = Returned false
  /\ map sid
       (store_lookups
          (events Demo.is_instructor Demo.fetch_last_answer_table_entry
             (Demo.ask (Some "stu1")) Demo.stu2))
     = [Some "stu2"].
Proof.
  split; [reflexivity|].
  apply (non_instructor_override
           Demo.is_instructor Demo.fetch_last_answer_table_entry
           (Demo.ask (Some "stu1")) Demo.stu2).
  reflexivity.
Defined.

(** The instructor "prof1" sends an empty [sid]. *)
Lemma instructor_default_witness :
  Demo.is_instructor Demo.prof1 = Returned true
  /\ sid (Demo.ask (Some "")) = Some ""
  /\ map sid
       (store_lookups
          (events Demo.is_instructor Demo.fetch_last_answer_table_entry
             (Demo.ask (Some "")) Demo.prof1))
     = [Some "prof1"].
Proof.
  split; [reflexivity|]. split; [reflexivity|].
  apply (instructor_default
           Demo.is_instructor Demo.fetch_last_answer_table_entry
           (Demo.ask (Some "")) Demo.prof1).
  - reflexivity.
  - right. reflexivity.
Defined.

(** The instructor "prof1" asks for the answer of "stu1". *)
Lemma instructor_override_witness :
  Demo.is_instructor Demo.prof1 = Returned true
  /\ map sid
       (store_lookups
          (events Demo.is_instructor Demo.fetch_last_answer_table_entry
             (Demo.ask (Some "stu1")) Demo.prof1))
     = [Some "stu1"].
Proof.
  split; [reflexivity|].
  apply (instructor_override
           Demo.is_instructor Demo.fetch_last_answer_table_entry
           (Demo.ask (Some "stu1")) Demo.prof1 "stu1").
  - reflexivity.
  - reflexivity.
  - discriminate.
Defined.

(** The recorded answer of "stu1" reaches "prof1" as the table holds it. *)
Lemma pass_through_fidelity_witness :
  response Demo.is_instructor Demo.fetch_last_answer_table_entry
    (Demo.ask (Some "stu1")) Demo.prof1
  = Returned Demo.stu1_answer.
Proof.
  apply (pass_through_fidelity
           Demo.is_instructor Demo.fetch_last_answer_table_entry
           (Demo.ask (Some "stu1")) Demo.prof1 (Demo.ask (Some "stu1"))
           {| entry_class := "MchoiceAnswers";
              entry_columns :=
                [("sid", PyStr "stu1"); ("div_id", PyStr "q1");
                 ("course_name", PyStr "cs101"); ("answer", PyStr "2");
                 ("correct", PyBool true)] |}).
  - left. reflexivity.
  - reflexivity.
Defined.

(** "stu2" has no recorded answer. *)
Lemma no_match_pass_through_witness :
  response Demo.is_instructor Demo.fetch_last_answer_table_entry
    (Demo.ask None) Demo.stu2
  = Returned (PyStr "").
Proof.
  apply (no_match_pass_through
           Demo.is_instructor Demo.fetch_last_answer_table_entry
           (Demo.ask None) Demo.stu2 (Demo.ask (Some "stu2"))).
  - left. reflexivity.
  - reflexivity.
Defined.

Lemma resolved_sid_invariant_witness :
  exists s,
    s <> ""
    /\ store_lookups
         (events Demo.is_instructor Demo.fetch_last_answer_table_entry
            (Demo.ask (Some "stu1")) Demo.stu2)
       = [setattr_sid (Some s) (Demo.ask (Some "stu1"))]
    /\ sid (request_data
              (snd (invoke Demo.is_instructor
                      Demo.fetch_last_answer_table_entry
                      (Demo.ask (Some "stu1")) Demo.stu2)))
       = Some s
    /\ (s = username (user (state Demo.stu2))
        \/ (false = true /\ sid (Demo.ask (Some "stu1")) = Some s)).
Proof.
  apply (resolved_sid_invariant
           Demo.is_instructor Demo.fetch_last_answer_table_entry
           (Demo.ask (Some "stu1")) Demo.stu2).
  - discriminate.
  - reflexivity.
Defined.

(** An empty mapping from the data layer becomes the empty string. *)
Lemma falsy_row_gives_empty_string_witness :
  truthy (PyDict []) = false
  /\ response Demo.is_instructor Demo.fetch_empty_record
       (Demo.ask None) Demo.stu2
     = Returned (PyStr "").
Proof.
  split; [reflexivity|].
  apply (falsy_row_gives_empty_string
           Demo.is_instructor Demo.fetch_empty_record
           (Demo.ask None) Demo.stu2 (Demo.ask (Some "stu2")) (PyDict [])).
  - left. reflexivity.
  - reflexivity.
  - reflexivity.
Defined.

Lemma resolution_touches_only_sid_witness :
  div_id (Demo.ask (Some "stu2")) = "q1"
  /\ course (Demo.ask (Some "stu2")) = "cs101"
  /\ fields (Demo.ask (Some "stu2")) = [("event", PyStr "mChoice")]
  /\ Demo.ask (Some "stu2")
     = setattr_sid (Some "stu2") (Demo.ask (Some "stu1")).
Proof.
  apply (resolution_touches_only_sid
           Demo.is_instructor Demo.fetch_last_answer_table_entry
           (Demo.ask (Some "stu1")) Demo.stu2 (Demo.ask (Some "stu2"))).
  left. reflexivity.
Defined.

(** ** Further properties of the endpoint *)

Section Propagation.

Variable is_instructor : Request -> Outcome bool.
Variable fetch_last_answer_table_entry : AssessmentRequest -> Outcome PyValue.

#[local] Abbreviation invoke :=
  (invoke is_instructor fetch_last_answer_table_entry).
#[local] Abbreviation response :=
  (response is_instructor fetch_last_answer_table_entry).
#[local] Abbreviation events :=
  (events is_instructor fetch_last_answer_table_entry).

(** X1.  An exception of the identity check is the outcome of the
    invocation: the store is not looked up and the request object keeps the
    [sid] the client sent. *)
Theorem identity_check_exception_propagates rd request e :
  is_instructor request = Raised e ->
  response rd request = Raised e
  /\ events rd request = [Await_is_instructor request]
  /\ request_data (snd (invoke rd request)) = rd.
Proof.
  intros Hi. unfold response, events.
  rewrite (invoke_identity_check_raises
             is_instructor fetch_last_answer_table_entry rd request e Hi).
  repeat split.
Qed.

(** X2.  An exception of the store lookup is the outcome of the invocation:
    nothing is logged, nothing is looked up again and no empty answer stands
    in for the failure. *)
Theorem store_exception_propagates rd request q e :
  In q (store_lookups (events rd request)) ->
  fetch_last_answer_table_entry q = Raised e ->
  response rd request = Raised e
  /\ events rd request
     = [Await_is_instructor request; Await_fetch_last_answer_table_entry q].
Proof.
  intros Hq Hf. unfold response, events in *.
  destruct (is_instructor request) as [b|e'] eqn:Hi.
  - destruct (invoke_identity_check_returns
                is_instructor fetch_last_answer_table_entry rd request b Hi)
      as (q' & _ & Hinv).
    rewrite Hinv in *.
    assert (q' = q) as ->.
    { destruct (fetch_last_answer_table_entry q') as [row|e''];
        [destruct (py_not row)|]; cbn in Hq; destruct Hq as [H|[]]; exact H. }
    rewrite Hf. split; reflexivity.
  - rewrite (invoke_identity_check_raises
               is_instructor fetch_last_answer_table_entry rd request e' Hi)
      in Hq.
    destruct Hq.
Qed.

(** X4.  A value the coroutine returns is the empty string or is truthy:
    the client is never sent [None], an empty mapping, an empty list, zero
    or [False]. *)
Theorem returned_value_is_empty_string_or_truthy rd request v :
  response rd request = Returned v ->
  v = PyStr "" \/ truthy v = true.
Proof.
  unfold response.
  destruct (is_instructor request) as [b|e'] eqn:Hi.
  - destruct (invoke_identity_check_returns
                is_instructor fetch_last_answer_table_entry rd request b Hi)
      as (q & _ & ->).
    destruct (fetch_last_answer_table_entry q) as [row|e''] eqn:Hf;
      [destruct (py_not row) eqn:Hn|]; cbn; intros H; try discriminate H;
      injection H as <-.
    + left. reflexivity.
    + right. apply py_not_false_iff. exact Hn.
  - rewrite (invoke_identity_check_raises
               is_instructor fetch_last_answer_table_entry rd request e' Hi).
    cbn. intros H. discriminate H.
Qed.

(** X5.  What a non-instructor writes into [sid] has no influence at all:
    two requests that differ in [sid] only run the same way, step by step,
    and end with the same answer and the same request object. *)
Theorem non_instructor_sid_is_ignored rd s1 s2 request :
  is_instructor request = Returned false ->
  invoke (setattr_sid s1 rd) request = invoke (setattr_sid s2 rd) request.
Proof.
  intros Hi.
  destruct (invoke_identity_check_returns
              is_instructor fetch_last_answer_table_entry
              (setattr_sid s1 rd) request false Hi) as (q1 & -> & ->).
  destruct (invoke_identity_check_returns
              is_instructor fetch_last_answer_table_entry
              (setattr_sid s2 rd) request false Hi) as (q2 & -> & ->).
  reflexivity.
Qed.

(** X6.  Leaving [sid] out and sending one's own username cannot be told
    apart, for any caller: the same calls are made and the same answer
    comes back. *)
Theorem absent_sid_is_own_username rd request :
  response (setattr_sid None rd) request
    = response (setattr_sid (Some (username (user (state request)))) rd)
        request
  /\ events (setattr_sid None rd) request
     = events (setattr_sid (Some (username (user (state request)))) rd)
         request.
Proof.
  unfold response, events.
  destruct (is_instructor request) as [b|e] eqn:Hi.
  - destruct (invoke_identity_check_returns
                is_instructor fetch_last_answer_table_entry
                (setattr_sid None rd) request b Hi) as (q1 & -> & ->).
    destruct (invoke_identity_check_returns
                is_instructor fetch_last_answer_table_entry
                (setattr_sid (Some (username (user (state request)))) rd)
                request b Hi) as (q2 & -> & ->).
    destruct b; cbn; [|split; reflexivity].
    destruct (py_not (PyStr (username (user (state request)))));
      split; reflexivity.
  - rewrite !(invoke_identity_check_raises
                is_instructor fetch_last_answer_table_entry _ request e Hi).
    split; reflexivity.
Qed.

(** X7.  Subject resolution is idempotent: sending the request object the
    store was looked up with, from the same caller, runs exactly as the
    first invocation did. *)
Theorem resolution_is_idempotent rd request q :
  In q (store_lookups (events rd request)) ->
  invoke q request = invoke rd request.
Proof.
  intros Hq.
  destruct (is_instructor request) as [b|e] eqn:Hi.
  - rewrite (store_lookups_identity_check_returns
               is_instructor fetch_last_answer_table_entry rd request b Hi)
      in Hq.
    destruct Hq as [Hq|[]].
    destruct (invoke_identity_check_returns
                is_instructor fetch_last_answer_table_entry rd request b Hi)
      as (q1 & E1 & ->).
    destruct (invoke_identity_check_returns
                is_instructor fetch_last_answer_table_entry q request b Hi)
      as (q2 & E2 & ->).
    assert (q1 = q) as -> by congruence.
    assert (q2 = q) as ->; [|reflexivity].
    rewrite E2. clear E1 E2. subst q.
    destruct b; cbn; [|reflexivity].
    destruct (py_not (py_optional_str (sid rd))) eqn:Hn; cbn.
    + destruct (py_not (PyStr (username (user (state request)))));
        reflexivity.
    + rewrite Hn. reflexivity.
  - rewrite (store_lookups_identity_check_raises
               is_instructor fetch_last_answer_table_entry rd request e Hi)
      in Hq.
    destruct Hq.
Qed.

End Propagation.

(** * Properties of the test fixtures *)

Section CopyTestBook.

Import Conftest.

Variable world : World.
Variable isinstance : PyException -> string -> bool.
Variable book_path web2py_path : string.

Local Open Scope list_scope.

#[local] Abbreviation cp :=
  (Copytree (web2py_path ++ "/tests/test_course_1")%string
            (test_book_path book_path)).

#[local] Abbreviation attempt :=
  (fun retry : nat =>
     try_except
       (bind (perform world cp) (fun _ => ret Break))
       (fun e => isinstance e "OSError")
       (fun e => if Nat.eqb retry 99 then raise e else ret Continue)).

#[local] Abbreviation copy_test_book :=
  (copy_test_book world isinstance book_path web2py_path).

(** One turn of the loop. *)
Lemma copy_loop_step retry rest tr :
  for_in (retry :: rest) attempt (ret tt) tr =
    match world tr cp with
    | Returned _ => (Returned tt, (tr ++ [cp])%list)
    | Raised e =>
        if isinstance e "OSError" then
          if Nat.eqb retry 99 then (Raised e, (tr ++ [cp])%list)
          else for_in rest attempt (ret tt) (tr ++ [cp])%list
        else (Raised e, (tr ++ [cp])%list)
    end.
Proof.
  cbn [for_in]. unfold bind at 1, try_except, bind, perform.
  destruct (world tr cp) as [v|e]; [reflexivity|].
  destruct (isinstance e "OSError"); [|reflexivity].
  destruct (Nat.eqb retry 99); reflexivity.
Qed.

Lemma repeat_snoc {A : Type} (x : A) (n : nat) (l : list A) :
  ((l ++ [x]) ++ repeat x n = l ++ repeat x (S n))%list.
Proof. rewrite <- app_assoc. reflexivity. Qed.

(** While [copytree] fails with an [OSError], the loop goes on to the next
    value of [retry]. *)
Lemma copy_loop_retries k : forall a n tr,
  k < n -> a + n = 100 ->
  (forall j, j < k ->
     exists e, world (tr ++ repeat cp j) cp = Raised e
               /\ isinstance e "OSError" = true) ->
  for_in (seq a n) attempt (ret tt) tr
  = for_in (seq (a + k) (n - k)) attempt (ret tt) (tr ++ repeat cp k).
Proof.
  induction k as [|k IH]; intros a n tr Hk Han Hfail.
  - cbn. rewrite app_nil_r, Nat.add_0_r, Nat.sub_0_r. reflexivity.
  - destruct n as [|n]; [lia|].
    cbn [seq]. rewrite copy_loop_step.
    destruct (Hfail 0) as (e & He & Hos); [lia|].
    cbn in He. rewrite app_nil_r in He. rewrite He, Hos.
    destruct (Nat.eqb_spec a 99) as [->|_]; [lia|].
    rewrite (IH (S a) n (tr ++ [cp])%list); [| lia | lia |].
    + rewrite repeat_snoc.
      replace (S a + k) with (a + S k) by lia. reflexivity.
    + intros j Hj. rewrite repeat_snoc. apply Hfail. lia.
Qed.

(** The loop, whatever the file system does: it stops after at most what
    is left of the hundred attempts, and ends well exactly when its last
    [copytree] did. *)
Lemma copy_loop_bounded n : forall a tr,
  0 < n -> a + n = 100 ->
  exists k,
    k < n
    /\ snd (for_in (seq a n) attempt (ret tt) tr)
       = (tr ++ repeat cp (S k))%list
    /\ (fst (for_in (seq a n) attempt (ret tt) tr) = Returned tt
        <-> exists v, world (tr ++ repeat cp k) cp = Returned v).
Proof.
  induction n as [|n IH]; intros a tr Hn Han; [lia|].
  cbn [seq]. rewrite copy_loop_step.
  destruct (world tr cp) as [v|e] eqn:Hw.
  - exists 0. cbn. rewrite app_nil_r, Hw. split; [lia|]. split; [reflexivity|].
    split; eauto.
  - destruct (isinstance e "OSError").
    + destruct (Nat.eqb_spec a 99) as [->|Hne].
      * exists 0. cbn. rewrite app_nil_r, Hw. split; [lia|].
        split; [reflexivity|]. split; [discriminate|].
        intros [v Hv]. discriminate Hv.
      * destruct (IH (S a) (tr ++ [cp])%list) as (k & Hk & Htr & Hres);
          [lia | lia |].
        exists (S k). split; [lia|].
        rewrite Htr, Hres, !repeat_snoc. split; [reflexivity|]. reflexivity.
    + exists 0. cbn. rewrite app_nil_r, Hw. split; [lia|].
      split; [reflexivity|]. split; [discriminate|].
      intros [v Hv]. discriminate Hv.
Qed.

Lemma copytree_calls_repeat n :
  copytree_calls (repeat cp n) = n.
Proof.
  unfold copytree_calls. induction n as [|n IH]; cbn; [reflexivity|].
  f_equal. exact IH.
Qed.

(** X8.  Copying the test book calls [copytree] at least once and at most a
    hundred times and does nothing else; it ends well exactly when its last
    call did, so it never goes on without the book. *)
Theorem copy_test_book_attempts_bounded :
  exists k,
    k < 100
    /\ snd (copy_test_book []) = repeat cp (S k)
    /\ copytree_calls (snd (copy_test_book [])) = S k
    /\ (fst (copy_test_book []) = Returned tt
        <-> exists v, world (repeat cp k) cp = Returned v).
Proof.
  destruct (copy_loop_bounded 100 0 []) as (k & Hk & Htr & Hres);
    [lia | lia |].
  exists k. unfold Conftest.copy_test_book, range.
  rewrite Htr. cbn [app]. rewrite copytree_calls_repeat.
  repeat split; try assumption; apply Hres.
Qed.

(** X9.  When [copytree] keeps failing with an [OSError], the fixture gives
    up after exactly a hundred calls and raises the error of the last
    one. *)
Theorem copy_test_book_gives_up_after_100 :
  (forall tr, exists e, world tr cp = Raised e
                        /\ isinstance e "OSError" = true) ->
  exists e,
    world (repeat cp 99) cp = Raised e
    /\ copy_test_book [] = (Raised e, repeat cp 100).
Proof.
  intros Hdown.
  destruct (Hdown (repeat cp 99)) as (e & He & Hos).
  exists e. split; [exact He|].
  unfold Conftest.copy_test_book, range.
  rewrite (copy_loop_retries 99 0 100 []); [| lia | lia |].
  - cbn [Nat.add Nat.sub seq app]. rewrite copy_loop_step.
    rewrite He, Hos. cbn [Nat.eqb].
    rewrite <- (repeat_cons 99 cp). reflexivity.
  - intros j _. apply Hdown.
Qed.

(** X10.  When [copytree] fails with an [OSError] [k] times, [k] below a
    hundred, and then goes through, the fixture ends well after exactly
    [k + 1] calls. *)
Theorem copy_test_book_succeeds_at_first_success k v :
  k < 100 ->
  (forall j, j < k ->
     exists e, world (repeat cp j) cp = Raised e
               /\ isinstance e "OSError" = true) ->
  world (repeat cp k) cp = Returned v ->
  copy_test_book [] = (Returned tt, repeat cp (S k)).
Proof.
  intros Hk Hfail Hok.
  unfold Conftest.copy_test_book, range.
  rewrite (copy_loop_retries k 0 100 []); [| lia | lia | exact Hfail].
  cbn [Nat.add app].
  destruct (100 - k) as [|m] eqn:Hm; [lia|].
  cbn [seq]. rewrite copy_loop_step, Hok.
  rewrite <- (repeat_cons k cp). reflexivity.
Qed.

(** X11.  An exception of [copytree] that is not an [OSError] is not
    retried: it leaves the fixture at once. *)
Theorem copy_test_book_other_exception_not_retried k e :
  k < 100 ->
  (forall j, j < k ->
     exists e', world (repeat cp j) cp = Raised e'
                /\ isinstance e' "OSError" = true) ->
  world (repeat cp k) cp = Raised e ->
  isinstance e "OSError" = false ->
  copy_test_book [] = (Raised e, repeat cp (S k)).
Proof.
  intros Hk Hfail Hraise Hnot.
  unfold Conftest.copy_test_book, range.
  rewrite (copy_loop_retries k 0 100 []); [| lia | lia | exact Hfail].
  cbn [Nat.add app].
  destruct (100 - k) as [|m] eqn:Hm; [lia|].
  cbn [seq]. rewrite copy_loop_step, Hraise, Hnot.
  rewrite <- (repeat_cons k cp). reflexivity.
Qed.

End CopyTestBook.

Section WaitForWebserver.

Import Conftest.

Variable world : World.
Variable isinstance : PyException -> string -> bool.
Variable bookserver_address : string.

Local Open Scope list_scope.

#[local] Abbreviation ask := (Urlopen bookserver_address 1).
#[local] Abbreviation failure := (Print "Failure, server not up.").
#[local] Abbreviation waiting :=
  (Print "Waiting for the webserver to come up...").
#[local] Abbreviation done :=
  (Print ("done." ++ String (Ascii.ascii_of_nat 10) "")%string).

(** The trace of the attempts that ended in the [URLError]s [es]. *)
#[local] Abbreviation failed :=
  (flat_map (fun e => [ask; PrintException e])).

#[local] Abbreviation attempt :=
  (fun tries : nat =>
     try_except
       (bind (perform world ask) (fun _ => ret Break))
       (fun e => isinstance e "URLError")
       (fun e => bind (print_exception e) (fun _ => ret Continue))).

#[local] Abbreviation wait_for_webserver :=
  (wait_for_webserver world isinstance bookserver_address).

Lemma wait_loop_step tries rest tr :
  for_in (tries :: rest) attempt (print "Failure, server not up.") tr =
    match world tr ask with
    | Returned _ => (Returned tt, tr ++ [ask])
    | Raised e =>
        if isinstance e "URLError"
        then for_in rest attempt (print "Failure, server not up.")
               (tr ++ [ask; PrintException e])
        else (Raised e, tr ++ [ask])
    end.
Proof.
  cbn [for_in]. unfold bind at 1, try_except, bind, perform, print_exception.
  destruct (world tr ask) as [v|e]; [reflexivity|].
  destruct (isinstance e "URLError"); [|reflexivity].
  cbn. rewrite <- app_assoc. reflexivity.
Qed.

(** The three ways the loop ends: an attempt goes through, an attempt
    raises something that is no [URLError], or all attempts are used up. *)
Lemma wait_loop_ends n : forall a tr,
  exists es,
    Forall (fun e => isinstance e "URLError" = true) es
    /\ ((length es < n
         /\ (exists v, world (tr ++ failed es) ask = Returned v)
         /\ for_in (seq a n) attempt (print "Failure, server not up.") tr
            = (Returned tt, tr ++ failed es ++ [ask]))
        \/ (length es < n
            /\ exists e,
                 world (tr ++ failed es) ask = Raised e
                 /\ isinstance e "URLError" = false
                 /\ for_in (seq a n) attempt (print "Failure, server not up.")
                      tr
                    = (Raised e, tr ++ failed es ++ [ask]))
        \/ (length es = n
            /\ for_in (seq a n) attempt (print "Failure, server not up.") tr
               = (Returned tt, tr ++ failed es ++ [failure]))).
Proof.
  induction n as [|n IH]; intros a tr.
  - exists []. split; [constructor|]. right; right. split; reflexivity.
  - cbn [seq]. rewrite wait_loop_step.
    destruct (world tr ask) as [v|e] eqn:Hw.
    + exists []. split; [constructor|]. left. cbn. rewrite app_nil_r.
      split; [lia|]. split; [eauto|reflexivity].
    + destruct (isinstance e "URLError") eqn:Hu.
      * destruct (IH (S a) (tr ++ [ask; PrintException e]))
          as (es & Hes & Hcases).
        exists (e :: es). split; [constructor; assumption|].
        cbn [flat_map length].
        rewrite <- !app_assoc in Hcases. cbn [app] in Hcases.
        destruct Hcases as [(Hl & Hv & ->)|[(Hl & e' & He' & Hn & ->)|(Hl & ->)]].
        -- left. split; [lia|]. split; [exact Hv|reflexivity].
        -- right; left. split; [lia|]. exists e'. repeat split; assumption.
        -- right; right. split; [lia|reflexivity].
      * exists []. split; [constructor|]. right; left. cbn.
        rewrite app_nil_r. split; [lia|]. exists e. repeat split; assumption.
Qed.

Lemma wait_for_webserver_unfold tr :
  wait_for_webserver tr =
    match for_in (range 10) attempt (print "Failure, server not up.")
            (tr ++ [waiting]) with
    | (Returned _, tr') => (Returned tt, tr' ++ [done])
    | (Raised e, tr') => (Raised e, tr')
    end.
Proof.
  unfold Conftest.wait_for_webserver, bind at 1, print at 1.
  unfold bind at 1.
  destruct (for_in (range 10) _ _ (tr ++ [waiting])) as [[[]|e] tr'];
    reflexivity.
Qed.

Lemma urlopen_calls_app tr1 tr2 :
  urlopen_calls (tr1 ++ tr2) = urlopen_calls tr1 + urlopen_calls tr2.
Proof. unfold urlopen_calls. rewrite filter_app, length_app. reflexivity. Qed.

Lemma urlopen_calls_failed es :
  urlopen_calls (failed es) = length es.
Proof.
  induction es as [|e es IH]; [reflexivity|].
  cbn [flat_map]. rewrite urlopen_calls_app, IH. reflexivity.
Qed.

Lemma no_failure_among_failed es : ~ In failure (failed es).
Proof.
  induction es as [|e es IH]; cbn; [tauto|].
  intros [H|[H|H]]; [discriminate H | discriminate H | exact (IH H)].
Qed.

(** X12.  Waiting for the web server never ends in a [URLError] and opens
    the address at least once and at most ten times. *)
Theorem wait_for_webserver_never_raises_URLError :
  (forall e, fst (wait_for_webserver []) = Raised e ->
             isinstance e "URLError" = false)
  /\ 1 <= urlopen_calls (snd (wait_for_webserver []))
  /\ urlopen_calls (snd (wait_for_webserver [])) <= 10.
Proof.
  rewrite wait_for_webserver_unfold. unfold range.
  destruct (wait_loop_ends 10 0 ([] ++ [waiting]))
    as (es & Hes & [(Hl & _ & ->)|[(Hl & e' & _ & Hn & ->)|(Hl & ->)]]);
    cbn [fst snd];
    (split; [intros e H; try discriminate H|]).
  2: { injection H as <-. exact Hn. }
  all: rewrite !urlopen_calls_app, urlopen_calls_failed; cbn; lia.
Qed.

(** X13.  When the server never comes up, every attempt ending in a
    [URLError], the fixture does not fail: after ten attempts it prints the
    failure message and goes on. *)
Theorem wait_for_webserver_goes_on_without_server :
  (forall tr, exists e, world tr ask = Raised e
                        /\ isinstance e "URLError" = true) ->
  fst (wait_for_webserver []) = Returned tt
  /\ urlopen_calls (snd (wait_for_webserver [])) = 10
  /\ exists es,
       length es = 10
       /\ snd (wait_for_webserver [])
          = waiting :: failed es ++ [failure; done].
Proof.
  intros Hdown.
  rewrite wait_for_webserver_unfold. unfold range.
  destruct (wait_loop_ends 10 0 ([] ++ [waiting]))
    as (es & Hes & [(Hl & [v Hv] & _)|[(Hl & e' & He' & Hn & _)|(Hl & ->)]]).
  - destruct (Hdown (([] ++ [waiting]) ++ failed es)) as (e & He & _).
    rewrite He in Hv. discriminate Hv.
  - destruct (Hdown (([] ++ [waiting]) ++ failed es)) as (e & He & Hu).
    rewrite He in He'. injection He' as <-. rewrite Hu in Hn. discriminate Hn.
  - cbn [fst snd]. split; [reflexivity|]. split.
    + rewrite !urlopen_calls_app, urlopen_calls_failed. cbn. lia.
    + exists es. split; [exact Hl|]. cbn [app].
      rewrite <- app_assoc. reflexivity.
Qed.

(** X14.  The failure message is printed only when all ten attempts ended
    in a [URLError]; the fixture then still ends well. *)
Theorem wait_for_webserver_failure_message :
  In failure (snd (wait_for_webserver [])) ->
  fst (wait_for_webserver []) = Returned tt
  /\ urlopen_calls (snd (wait_for_webserver [])) = 10
  /\ exists es,
       length es = 10
       /\ Forall (fun e => isinstance e "URLError" = true) es
       /\ snd (wait_for_webserver [])
          = waiting :: failed es ++ [failure; done].
Proof.
  rewrite wait_for_webserver_unfold. unfold range.
  destruct (wait_loop_ends 10 0 ([] ++ [waiting]))
    as (es & Hes & [(Hl & _ & ->)|[(Hl & e' & _ & _ & ->)|(Hl & ->)]]);
    cbn [fst snd]; intros Hin.
  - exfalso. rewrite !in_app_iff in Hin. cbn in Hin.
    repeat match type of Hin with
           | _ \/ _ => destruct Hin as [Hin|Hin]
           end;
      try discriminate Hin; try contradiction;
      exact (no_failure_among_failed es Hin).
  - exfalso. rewrite !in_app_iff in Hin. cbn in Hin.
    repeat match type of Hin with
           | _ \/ _ => destruct Hin as [Hin|Hin]
           end;
      try discriminate Hin; try contradiction;
      exact (no_failure_among_failed es Hin).
  - split; [reflexivity|]. split.
    + rewrite !urlopen_calls_app, urlopen_calls_failed. cbn. lia.
    + exists es. split; [exact Hl|]. split; [exact Hes|]. cbn [app].
      rewrite <- app_assoc. reflexivity.
Qed.

End WaitForWebserver.

Section CleanDatabase.

Import Conftest.

Variable world : World.
Variable isinstance : PyException -> string -> bool.

Local Open Scope list_scope.

#[local] Abbreviation delete_stmt :=
  (fun table : string => ("DELETE FROM " ++ table ++ ";")%string).

#[local] Abbreviation truncate_stmt :=
  ("TRUNCATE " ++ py_join ", " tables_to_delete ++ " CASCADE;")%string.

#[local] Abbreviation delete_one :=
  (fun table : string =>
     bind (print table)
       (fun _ =>
          bind (try_except
                  (bind (perform world (Execute (delete_stmt table)))
                     (fun _ => ret tt))
                  (fun e => isinstance e "Exception")
                  (fun e => print_exception e))
            (fun _ => ret Continue))).

Lemma executed_app tr1 tr2 :
  executed (tr1 ++ tr2) = executed tr1 ++ executed tr2.
Proof. unfold executed. apply flat_map_app. Qed.

Lemma delete_loop_step table rest tr :
  for_in (table :: rest) delete_one (ret tt) tr =
    match world (tr ++ [Print table]) (Execute (delete_stmt table)) with
    | Returned _ =>
        for_in rest delete_one (ret tt)
          (tr ++ [Print table; Execute (delete_stmt table)])
    | Raised e =>
        if isinstance e "Exception"
        then for_in rest delete_one (ret tt)
               (tr ++ [Print table; Execute (delete_stmt table);
                       PrintException e])
        else (Raised e, tr ++ [Print table; Execute (delete_stmt table)])
    end.
Proof.
  cbn [for_in]. unfold bind at 1, bind at 1, print, try_except, bind, perform,
    print_exception.
  destruct (world (tr ++ [Print table]) (Execute (delete_stmt table)))
    as [v|e]; cbn; rewrite <- ?app_assoc; [reflexivity|].
  destruct (isinstance e "Exception"); cbn; rewrite <- ?app_assoc;
    reflexivity.
Qed.

(** Whatever the database answers, the statements of the loop are those of
    the first tables, in the order of the list. *)
Lemma delete_loop_executed tables : forall tr,
  exists k,
    k <= length tables
    /\ executed (snd (for_in tables delete_one (ret tt) tr))
       = executed tr ++ map delete_stmt (firstn k tables)
    /\ (fst (for_in tables delete_one (ret tt) tr) = Returned tt ->
        k = length tables).
Proof.
  induction tables as [|table rest IH]; intros tr.
  - exists 0. cbn. rewrite app_nil_r. auto.
  - rewrite delete_loop_step.
    destruct (world (tr ++ [Print table]) (Execute (delete_stmt table)))
      as [v|e].
    + destruct (IH (tr ++ [Print table; Execute (delete_stmt table)]))
        as (k & Hk & Hex & Hok).
      exists (S k). cbn [length firstn map]. split; [lia|].
      rewrite Hex, executed_app. cbn. rewrite <- app_assoc. split; auto.
    + destruct (isinstance e "Exception").
      * destruct (IH (tr ++ [Print table; Execute (delete_stmt table);
                             PrintException e]))
          as (k & Hk & Hex & Hok).
        exists (S k). cbn [length firstn map]. split; [lia|].
        rewrite Hex, executed_app. cbn. rewrite <- app_assoc. split; auto.
      * exists 1. cbn [length firstn map fst snd]. split; [lia|].
        rewrite executed_app. cbn. split; [reflexivity|].
        intros H. discriminate H.
Qed.

(** When every failure of a statement is an [Exception], the loop runs to
    its end: one statement for each table, and no exception gets out. *)
Lemma delete_loop_swallows tables :
  (forall tr sql e, world tr (Execute sql) = Raised e ->
                    isinstance e "Exception" = true) ->
  forall tr,
    fst (for_in tables delete_one (ret tt) tr) = Returned tt
    /\ executed (snd (for_in tables delete_one (ret tt) tr))
       = executed tr ++ map delete_stmt tables.
Proof.
  intros Hexc. induction tables as [|table rest IH]; intros tr.
  - cbn. rewrite app_nil_r. auto.
  - rewrite delete_loop_step.
    destruct (world (tr ++ [Print table]) (Execute (delete_stmt table)))
      as [v|e] eqn:Hw.
    + destruct (IH (tr ++ [Print table; Execute (delete_stmt table)]))
        as [Hok Hex].
      rewrite Hok, Hex, executed_app. cbn. rewrite <- app_assoc. auto.
    + rewrite (Hexc _ _ _ Hw).
      destruct (IH (tr ++ [Print table; Execute (delete_stmt table);
                           PrintException e])) as [Hok Hex].
      rewrite Hok, Hex, executed_app. cbn. rewrite <- app_assoc. auto.
Qed.

(** [async with engine.begin()], spelled out. *)
Lemma async_with_engine_begin_unfold body tr :
  async_with_engine_begin world body tr =
    match world tr Aenter_engine_begin with
    | Raised e => (Raised e, tr ++ [Aenter_engine_begin])
    | Returned _ =>
        match body (tr ++ [Aenter_engine_begin]) with
        | (Returned _, tr') =>
            match world tr' (Aexit_engine_begin None) with
            | Returned _ => (Returned tt, tr' ++ [Aexit_engine_begin None])
            | Raised e => (Raised e, tr' ++ [Aexit_engine_begin None])
            end
        | (Raised e, tr') =>
            match world tr' (Aexit_engine_begin (Some e)) with
            | Returned swallow =>
                if truthy swallow
                then (Returned tt, tr' ++ [Aexit_engine_begin (Some e)])
                else (Raised e, tr' ++ [Aexit_engine_begin (Some e)])
            | Raised e' => (Raised e', tr' ++ [Aexit_engine_begin (Some e)])
            end
        end
    end.
Proof.
  unfold async_with_engine_begin, bind at 1, perform at 1.
  destruct (world tr Aenter_engine_begin) as [v|e]; [|reflexivity].
  destruct (body (tr ++ [Aenter_engine_begin])) as [[u|e] tr'].
  - unfold bind, perform.
    destruct (world tr' (Aexit_engine_begin None)); reflexivity.
  - unfold bind, perform.
    destruct (world tr' (Aexit_engine_begin (Some e))) as [swallow|e'];
      [destruct (truthy swallow)|]; reflexivity.
Qed.

(** Entering and leaving the block execute no statement. *)
Lemma executed_async_with_engine_begin body tr :
  executed (snd (async_with_engine_begin world body tr)) = executed tr
  \/ executed (snd (async_with_engine_begin world body tr))
     = executed (snd (body (tr ++ [Aenter_engine_begin]))).
Proof.
  rewrite async_with_engine_begin_unfold.
  destruct (world tr Aenter_engine_begin) as [v|e].
  - right. destruct (body (tr ++ [Aenter_engine_begin])) as [[u|e] tr'].
    + destruct (world tr' (Aexit_engine_begin None)); cbn [snd];
        rewrite executed_app; cbn; apply app_nil_r.
    + destruct (world tr' (Aexit_engine_begin (Some e))) as [swallow|e'];
        [destruct (truthy swallow)|]; cbn [snd];
        rewrite executed_app; cbn; apply app_nil_r.
  - left. cbn [snd]. rewrite executed_app. cbn. apply app_nil_r.
Qed.

(** The loop only adds to the trace. *)
Lemma delete_loop_extends tables : forall tr,
  exists more, snd (for_in tables delete_one (ret tt) tr) = tr ++ more.
Proof.
  induction tables as [|table rest IH]; intros tr.
  - exists []. cbn. symmetry. apply app_nil_r.
  - rewrite delete_loop_step.
    destruct (world (tr ++ [Print table]) (Execute (delete_stmt table)))
      as [v|e]; [|destruct (isinstance e "Exception")];
      try (match goal with
           | |- context [for_in rest _ _ ?t] =>
               destruct (IH t) as (more & ->)
           end;
           rewrite <- app_assoc; eexists; reflexivity).
    eexists. reflexivity.
Qed.

(** ** Words *)

Lemma list_ascii_of_string_snoc (s : string) (c : Ascii.ascii) :
  list_ascii_of_string (s ++ String c "")%string
  = list_ascii_of_string s ++ [c].
Proof. induction s as [|a s IH]; cbn; [reflexivity|]. f_equal. exact IH. Qed.

(** The words [str.split()] finds are not empty and hold no whitespace;
    [cur] is the word under way. *)
Lemma py_split_from_words s : forall cur,
  Forall (fun c => py_isspace c = false) (list_ascii_of_string cur) ->
  Forall (fun w => w <> ""%string
                   /\ Forall (fun c => py_isspace c = false)
                        (list_ascii_of_string w))
    (py_split_from cur s).
Proof.
  induction s as [|c rest IH]; intros cur Hcur; cbn.
  - destruct cur; cbn; constructor; [|constructor].
    split; [discriminate|exact Hcur].
  - destruct (py_isspace c) eqn:Hc.
    + destruct cur; cbn.
      * apply IH. constructor.
      * constructor; [split; [discriminate|exact Hcur]|].
        apply IH. constructor.
    + apply IH. rewrite list_ascii_of_string_snoc.
      apply Forall_app. split; [exact Hcur|]. constructor; [exact Hc|].
      constructor.
Qed.

Lemma tables_to_delete_words :
  Forall (fun w => w <> ""%string
                   /\ Forall (fun c => py_isspace c = false)
                        (list_ascii_of_string w))
    tables_to_delete.
Proof. apply py_split_from_words. constructor. Qed.

Lemma tables_to_delete_NoDup : NoDup tables_to_delete.
Proof.
  assert (nodup string_dec tables_to_delete = tables_to_delete) as <-
    by (vm_compute; reflexivity).
  apply NoDup_nodup.
Qed.

Lemma delete_stmt_injective t1 t2 :
  delete_stmt t1 = delete_stmt t2 -> t1 = t2.
Proof.
  intros H. cbn in H. injection H as H. revert t2 H.
  induction t1 as [|a t1 IH]; intros [|b t2] H; cbn in H.
  - reflexivity.
  - injection H as _ H. destruct t2; discriminate H.
  - injection H as _ H. destruct t1; discriminate H.
  - injection H as -> H. f_equal. apply IH. exact H.
Qed.

Lemma in_firstn {A : Type} (k : nat) (l : list A) (x : A) :
  In x (firstn k l) -> In x l.
Proof.
  intros H. rewrite <- (firstn_skipn k l). apply in_or_app. left. exact H.
Qed.

Lemma tables_to_delete_length : length tables_to_delete = 43.
Proof. vm_compute. reflexivity. Qed.

#[local] Opaque tables_to_delete.

Lemma bookserver_session_delete_branch tr :
  bookserver_session world isinstance false tr
  = async_with_engine_begin world
      (for_in tables_to_delete delete_one (ret tt)) tr.
Proof. reflexivity. Qed.

Lemma bookserver_session_truncate_branch tr :
  bookserver_session world isinstance true tr
  = async_with_engine_begin world
      (bind (perform world (Execute truncate_stmt)) (fun _ => ret tt)) tr.
Proof. reflexivity. Qed.

(** X15.  Without PostgreSQL, a [DELETE] that fails with an [Exception]
    stops nothing: all 43 tables get their statement, in the order of the
    list, and the block is left without an exception. *)
Theorem bookserver_session_swallows_delete_failures v0 :
  world [] Aenter_engine_begin = Returned v0 ->
  (forall tr sql e, world tr (Execute sql) = Raised e ->
                    isinstance e "Exception" = true) ->
  executed (snd (bookserver_session world isinstance false []))
    = map delete_stmt tables_to_delete
  /\ length (executed (snd (bookserver_session world isinstance false [])))
     = 43
  /\ exists mid,
       snd (bookserver_session world isinstance false [])
         = Aenter_engine_begin :: mid ++ [Aexit_engine_begin None]
       /\ (forall e,
             fst (bookserver_session world isinstance false []) = Raised e ->
             world (Aenter_engine_begin :: mid) (Aexit_engine_begin None)
               = Raised e).
Proof.
  intros Henter Hexc.
  rewrite bookserver_session_delete_branch, async_with_engine_begin_unfold.
  rewrite Henter.
  destruct (delete_loop_swallows tables_to_delete Hexc
              ([] ++ [Aenter_engine_begin])) as [Hok Hex].
  destruct (delete_loop_extends tables_to_delete
              ([] ++ [Aenter_engine_begin])) as (mid & Hmid).
  destruct (for_in tables_to_delete delete_one (ret tt)
              ([] ++ [Aenter_engine_begin])) as [[u|e] tr'];
    cbn [fst snd] in *; [|discriminate Hok].
  subst tr'. cbn [app] in *.
  assert (Hall : executed
                   ((Aenter_engine_begin :: mid) ++ [Aexit_engine_begin None])
                 = map delete_stmt tables_to_delete).
  { rewrite executed_app, Hex. cbn. apply app_nil_r. }
  cbn [app] in Hall.
  destruct (world (Aenter_engine_begin :: mid) (Aexit_engine_begin None))
    as [v|e] eqn:Hexit; cbn [fst snd]; rewrite Hall;
    (split; [reflexivity|]);
    (split; [rewrite length_map; exact tables_to_delete_length|]);
    exists mid; (split; [reflexivity|]); intros e' H;
    [discriminate H|injection H as <-; exact Hexit].
Qed.

(** X16.  With PostgreSQL, one statement is executed, a [TRUNCATE] of the
    listed tables; when it fails, [__aexit__] gets the exception and, unless
    it swallows it, the fixture raises it: no test runs. *)
Theorem bookserver_session_truncate_failure_propagates v0 e :
  world [] Aenter_engine_begin = Returned v0 ->
  world [Aenter_engine_begin] (Execute truncate_stmt) = Raised e ->
  snd (bookserver_session world isinstance true [])
    = [Aenter_engine_begin; Execute truncate_stmt;
       Aexit_engine_begin (Some e)]
  /\ (forall swallow,
        world [Aenter_engine_begin; Execute truncate_stmt]
              (Aexit_engine_begin (Some e)) = Returned swallow ->
        truthy swallow = false ->
        fst (bookserver_session world isinstance true []) = Raised e).
Proof.
  intros Henter Hfail.
  rewrite bookserver_session_truncate_branch, async_with_engine_begin_unfold.
  rewrite Henter. unfold bind, perform. cbn [app]. rewrite Hfail.
  destruct (world [Aenter_engine_begin; Execute truncate_stmt]
              (Aexit_engine_begin (Some e))) as [v|e'];
    [destruct (truthy v) eqn:Hv|]; cbn [fst snd];
    (split; [reflexivity|]); intros swallow H Hs;
    try discriminate H; injection H as <-; congruence.
Qed.

(** X17.  Whatever the database answers and whichever branch runs, every
    statement of the fixture is the [TRUNCATE] of the listed tables or the
    [DELETE] of one of them; the tables the book build fills and those of
    the scheduler are not listed. *)
Theorem bookserver_session_touches_listed_tables_only postgresql :
  Forall (fun sql =>
            sql = truncate_stmt
            \/ exists table, In table tables_to_delete
                             /\ sql = delete_stmt table)
    (executed (snd (bookserver_session world isinstance postgresql [])))
  /\ Forall (fun table => ~ In table tables_to_delete)
       ["questions"; "source_code"; "chapters"; "sub_chapters";
        "scheduler_run"; "scheduler_task"; "scheduler_task_deps";
        "scheduler_worker"]%string.
Proof.
  split.
  - destruct postgresql.
    + rewrite bookserver_session_truncate_branch.
      destruct (executed_async_with_engine_begin
                  (bind (perform world (Execute truncate_stmt))
                     (fun _ => ret tt)) []) as [->| ->].
      * constructor.
      * unfold bind, perform.
        destruct (world ([] ++ [Aenter_engine_begin]) (Execute truncate_stmt));
          cbn; constructor; auto.
    + rewrite bookserver_session_delete_branch.
      destruct (executed_async_with_engine_begin
                  (for_in tables_to_delete delete_one (ret tt)) [])
        as [->| ->].
      * constructor.
      * destruct (delete_loop_executed tables_to_delete
                    ([] ++ [Aenter_engine_begin])) as (k & _ & -> & _).
        cbn [app executed flat_map]. apply Forall_forall. intros sql Hin.
        apply in_map_iff in Hin. destruct Hin as (t & <- & Ht).
        right. exists t. split; [|reflexivity].
        exact (in_firstn k _ _ Ht).
  - repeat (apply Forall_cons;
            [ intros H;
              match type of H with
              | In ?t _ =>
                  assert (E : existsb (String.eqb t) tables_to_delete = true)
                    by (apply existsb_exists; exists t;
                        split; [exact H|apply String.eqb_refl]);
                  vm_compute in E; discriminate E
              end
            | ]).
    apply Forall_nil.
Qed.

(** X18.  Without PostgreSQL, whatever the database answers, every
    statement is [DELETE FROM w;] for a word [w] of the table list that is
    not empty and holds no whitespace, and no statement is sent twice. *)
Theorem bookserver_session_delete_statements_well_formed :
  Forall (fun sql =>
            exists w,
              sql = delete_stmt w /\ w <> ""%string
              /\ Forall (fun c => py_isspace c = false)
                   (list_ascii_of_string w))
    (executed (snd (bookserver_session world isinstance false [])))
  /\ NoDup (executed (snd (bookserver_session world isinstance false []))).
Proof.
  rewrite bookserver_session_delete_branch.
  destruct (executed_async_with_engine_begin
              (for_in tables_to_delete delete_one (ret tt)) [])
    as [->| ->].
  - split; constructor.
  - destruct (delete_loop_executed tables_to_delete
                ([] ++ [Aenter_engine_begin])) as (k & _ & -> & _).
    cbn [app executed flat_map]. split.
    + apply Forall_forall. intros sql Hin.
      apply in_map_iff in Hin. destruct Hin as (t & <- & Ht).
      exists t. split; [reflexivity|].
      apply in_firstn in Ht.
      exact (proj1 (Forall_forall _ _) tables_to_delete_words t Ht).
    + apply NoDup_map_NoDup_ForallPairs.
      * intros t1 t2 _ _. apply delete_stmt_injective.
      * pose proof tables_to_delete_NoDup as Hnd.
        rewrite <- (firstn_skipn k tables_to_delete) in Hnd.
        apply NoDup_app_remove_r in Hnd. exact Hnd.
Qed.

End CleanDatabase.

Section CreateTestUser.

Import Conftest.

Variable world : World.

Local Open Scope list_scope.

Lemma dict_pop_None k d : dict_get k d = None -> dict_pop k d = None.
Proof.
  induction d as [|[k' v] rest IH]; cbn; [reflexivity|].
  destruct (String.eqb k k'); [discriminate|].
  intros H. rewrite (IH H). reflexivity.
Qed.

Lemma dict_get_not_in k d : ~ In k (map fst d) -> dict_get k d = None.
Proof.
  induction d as [|[k' v] d IH]; cbn; intros H; [reflexivity|].
  destruct (String.eqb_spec k k') as [->|_].
  - elim H. left. reflexivity.
  - apply IH. intros Hin. apply H. right. exact Hin.
Qed.

(** Popping a key hands out its value and leaves the other keys alone. *)
Lemma dict_pop_Some k d : forall v rest,
  dict_pop k d = Some (v, rest) ->
  dict_get k d = Some v
  /\ (forall k', k' <> k -> dict_get k' rest = dict_get k' d)
  /\ (NoDup (map fst d) -> dict_get k rest = None).
Proof.
  induction d as [|[k1 v1] d IH]; cbn; intros v rest H; [discriminate H|].
  destruct (String.eqb_spec k k1) as [->|Hne].
  - injection H as <- <-. split; [reflexivity|]. split.
    + intros k' Hk'. destruct (String.eqb_spec k' k1); [contradiction|].
      reflexivity.
    + intros Hnd. inversion Hnd as [|? ? Hnotin _]; subst.
      apply dict_get_not_in. exact Hnotin.
  - destruct (dict_pop k d) as [[x rest']|] eqn:Hpop; [|discriminate H].
    injection H as <- <-.
    destruct (IH x rest' eq_refl) as (Hget & Hother & Hgone).
    split; [exact Hget|]. split.
    + intros k' Hk'. cbn. destruct (String.eqb k' k1); [reflexivity|].
      apply Hother. exact Hk'.
    + intros Hnd. cbn.
      destruct (String.eqb_spec k k1) as [->|_]; [contradiction|].
      apply Hgone. inversion Hnd. assumption.
Qed.

(** X19.  Without a ["course"] keyword the helper raises [KeyError] before
    anything is validated or created. *)
Theorem create_test_user_needs_course kwargs tr :
  dict_get "course" kwargs = None ->
  _create_test_user world kwargs tr = (Raised (OtherException "KeyError"), tr).
Proof.
  intros H. unfold _create_test_user. rewrite (dict_pop_None _ _ H).
  reflexivity.
Qed.

(** X20.  The user validator gets the keywords without ["course"], every
    other keyword as it was given; the returned object is built from
    keywords that read, key by key, as the ones given. *)
Theorem create_test_user_passes_keywords_on kwargs :
  Forall (fun c =>
            match c with
            | Call_AuthUserValidator kw =>
                (forall k, k <> "course"%string ->
                           dict_get k kw = dict_get k kwargs)
                /\ (NoDup (map fst kwargs) -> dict_get "course" kw = None)
            | Call_TestAuthUserValidator kw =>
                forall k, dict_get k kw = dict_get k kwargs
            | _ => True
            end)
    (snd (_create_test_user world kwargs [])).
Proof.
  unfold _create_test_user.
  destruct (dict_pop "course" kwargs) as [[course rest]|] eqn:Hpop;
    [|constructor].
  destruct (dict_pop_Some _ _ _ _ Hpop) as (Hget & Hother & Hgone).
  assert (Hfinal : forall k, dict_get k (("course"%string, course) :: rest)
                             = dict_get k kwargs).
  { intros k. cbn [dict_get].
    destruct (String.eqb_spec k "course") as [->|Hk];
      [symmetry; exact Hget | apply Hother; exact Hk]. }
  unfold bind, perform. cbn [app].
  destruct (world [] (Call_AuthUserValidator rest)) as [user|e];
    [|repeat constructor; assumption].
  destruct (world [Call_AuthUserValidator rest] (Await_create_user user))
    as [created|e]; [|repeat constructor; assumption].
  destruct (py_not created); cbn [snd raise app];
    repeat constructor; assumption.
Qed.

(** X21.  A test user is handed out only when the user was validated,
    [create_user] answered with a truthy value and the object with the
    course was built, in this order. *)
Theorem create_test_user_returns_only_created kwargs v :
  fst (_create_test_user world kwargs []) = Returned v ->
  exists course rest user created,
    dict_pop "course" kwargs = Some (course, rest)
    /\ world [] (Call_AuthUserValidator rest) = Returned user
    /\ world [Call_AuthUserValidator rest] (Await_create_user user)
       = Returned created
    /\ truthy created = true
    /\ world [Call_AuthUserValidator rest; Await_create_user user]
         (Call_TestAuthUserValidator (("course"%string, course) :: rest))
       = Returned v
    /\ snd (_create_test_user world kwargs [])
       = [Call_AuthUserValidator rest; Await_create_user user;
          Call_TestAuthUserValidator (("course"%string, course) :: rest)].
Proof.
  unfold _create_test_user.
  destruct (dict_pop "course" kwargs) as [[course rest]|] eqn:Hpop;
    [|intros H; discriminate H].
  unfold bind, perform. cbn [app].
  destruct (world [] (Call_AuthUserValidator rest)) as [user|e] eqn:Hu;
    [|intros H; discriminate H].
  destruct (world [Call_AuthUserValidator rest] (Await_create_user user))
    as [created|e] eqn:Hc; [|intros H; discriminate H].
  unfold py_not. destruct (truthy created) eqn:Ht; cbn [negb fst snd raise];
    intros H; [|discriminate H].
  exists course, rest, user, created. repeat split; assumption.
Qed.

End CreateTestUser.

Section SyncDburl.

Import Ascii Conftest.

#[local] Abbreviation plus_free :=
  (fun s : string =>
     Forall (fun c => c <> "+"%char) (list_ascii_of_string s)).

Lemma prefix_append (s t : string) : String.prefix s (s ++ t) = true.
Proof.
  induction s as [|c s IH]; cbn; [destruct t; reflexivity|].
  destruct (Ascii.ascii_dec c c); [exact IH|contradiction].
Qed.

Lemma append_empty_r (s : string) : (s ++ "")%string = s.
Proof. induction s as [|c s IH]; cbn; [reflexivity|]. f_equal. exact IH. Qed.

(** The characters of a found occurrence are passed over. *)
Lemma py_replace_from_skip old new x : forall s,
  py_replace_from old new (String.length x) (x ++ s)
  = py_replace_from old new 0 s.
Proof.
  induction x as [|c x IH]; intros s; cbn [String.length append].
  - reflexivity.
  - cbn [py_replace_from]. apply IH.
Qed.

Lemma py_replace_from_occurrence c old new s :
  py_replace_from (String c old) new 0 (String c old ++ s)
  = (new ++ py_replace_from (String c old) new 0 s)%string.
Proof.
  cbn [append py_replace_from].
  change (String c (old ++ s)) with (String c old ++ s)%string.
  rewrite prefix_append.
  replace (String.length (String c old) - 1) with (String.length old)
    by (cbn [String.length]; lia).
  rewrite py_replace_from_skip. reflexivity.
Qed.

(** Nothing is found in front of the first ["+"]. *)
Lemma py_replace_from_plus_free old new a : forall s,
  plus_free a ->
  py_replace_from (String "+" old) new 0 (a ++ s)
  = (a ++ py_replace_from (String "+" old) new 0 s)%string.
Proof.
  induction a as [|c a IH]; intros s Ha; [reflexivity|].
  inversion Ha as [|? ? Hc Ha']; subst.
  cbn [append py_replace_from String.prefix].
  destruct (Ascii.ascii_dec "+" c) as [<-|_]; [contradiction|].
  rewrite (IH s Ha'). reflexivity.
Qed.

Lemma py_replace_from_plus_free_id old new a :
  plus_free a -> py_replace_from (String "+" old) new 0 a = a.
Proof.
  intros Ha. pose proof (py_replace_from_plus_free old new a "" Ha) as H.
  change (py_replace_from (String "+" old) new 0 "") with ""%string in H.
  rewrite !append_empty_r in H. exact H.
Qed.

Lemma py_replace_from_cons old new c rest :
  py_replace_from old new 0 (String c rest)
  = if String.prefix old (String c rest)
    then (new ++ py_replace_from old new (String.length old - 1) rest)%string
    else String c (py_replace_from old new 0 rest).
Proof. reflexivity. Qed.

(** [+aiosqlite] is no occurrence of [+asyncpg]. *)
Lemma py_replace_asyncpg_keeps_aiosqlite b :
  plus_free b ->
  py_replace_from "+asyncpg" "" 0 ("+aiosqlite" ++ b)
  = ("+aiosqlite" ++ b)%string.
Proof.
  intros Hb.
  change ("+aiosqlite" ++ b)%string
    with (String "+" ("aiosqlite" ++ b))%string.
  rewrite py_replace_from_cons.
  assert (String.prefix "+asyncpg" (String "+" ("aiosqlite" ++ b)) = false)
    as -> by reflexivity.
  rewrite (py_replace_from_plus_free "asyncpg" "" "aiosqlite" b)
    by (repeat constructor; discriminate).
  rewrite (py_replace_from_plus_free_id _ _ b Hb). reflexivity.
Qed.

(** X22.  A database URL whose only ["+"] introduces the asynchronous
    driver loses just that driver suffix, be it [+asyncpg] or [+aiosqlite];
    a URL without a ["+"] is left as it is. *)
Theorem sync_dburl_strips_async_driver a b :
  plus_free a -> plus_free b ->
  sync_dburl (a ++ "+asyncpg" ++ b) = (a ++ b)%string
  /\ sync_dburl (a ++ "+aiosqlite" ++ b) = (a ++ b)%string
  /\ sync_dburl a = a.
Proof.
  intros Ha Hb. unfold sync_dburl, py_replace. cbn [is_empty_str].
  repeat split.
  - rewrite (py_replace_from_plus_free _ _ a _ Ha).
    rewrite py_replace_from_occurrence.
    rewrite (py_replace_from_plus_free_id _ _ b Hb). cbn [append].
    rewrite (py_replace_from_plus_free _ _ a _ Ha).
    rewrite (py_replace_from_plus_free_id _ _ b Hb). reflexivity.
  - rewrite (py_replace_from_plus_free _ _ a _ Ha).
    rewrite (py_replace_asyncpg_keeps_aiosqlite b Hb).
    rewrite (py_replace_from_plus_free _ _ a _ Ha).
    rewrite py_replace_from_occurrence.
    rewrite (py_replace_from_plus_free_id _ _ b Hb). reflexivity.
  - rewrite (py_replace_from_plus_free_id _ _ a Ha).
    apply (py_replace_from_plus_free_id _ _ a Ha).
Qed.

End SyncDburl.

(** ** The further properties on the samples *)

Lemma identity_check_exception_propagates_witness :
  response Outage.is_instructor Demo.fetch_last_answer_table_entry
    (Demo.ask (Some "stu1")) Demo.stu2
  = Raised (HTTPException 401).
Proof.
  apply (identity_check_exception_propagates
           Outage.is_instructor Demo.fetch_last_answer_table_entry
           (Demo.ask (Some "stu1")) Demo.stu2 (HTTPException 401)).
  reflexivity.
Defined.

Lemma store_exception_propagates_witness :
  response Demo.is_instructor Outage.fetch_last_answer_table_entry
    (Demo.ask None) Demo.stu2
  = Raised (OtherException "OperationalError").
Proof.
  apply (store_exception_propagates
           Demo.is_instructor Outage.fetch_last_answer_table_entry
           (Demo.ask None) Demo.stu2 (Demo.ask (Some "stu2"))
           (OtherException "OperationalError")).
  - left. reflexivity.
  - reflexivity.
Defined.

Lemma returned_value_is_empty_string_or_truthy_witness :
  Demo.stu1_answer = PyStr "" \/ truthy Demo.stu1_answer = true.
Proof.
  apply (returned_value_is_empty_string_or_truthy
           Demo.is_instructor Demo.fetch_last_answer_table_entry
           (Demo.ask (Some "stu1")) Demo.prof1 Demo.stu1_answer).
  reflexivity.
Defined.

Lemma non_instructor_sid_is_ignored_witness :
  invoke Demo.is_instructor Demo.fetch_last_answer_table_entry
    (setattr_sid (Some "stu1") (Demo.ask None)) Demo.stu2
  = invoke Demo.is_instructor Demo.fetch_last_answer_table_entry
      (setattr_sid (Some "prof1") (Demo.ask None)) Demo.stu2.
Proof.
  apply (non_instructor_sid_is_ignored
           Demo.is_instructor Demo.fetch_last_answer_table_entry
           (Demo.ask None) (Some "stu1") (Some "prof1") Demo.stu2).
  reflexivity.
Defined.

Lemma resolution_is_idempotent_witness :
  invoke Demo.is_instructor Demo.fetch_last_answer_table_entry
    (Demo.ask (Some "prof1")) Demo.prof1
  = invoke Demo.is_instructor Demo.fetch_last_answer_table_entry
      (Demo.ask (Some "")) Demo.prof1.
Proof.
  apply (resolution_is_idempotent
           Demo.is_instructor Demo.fetch_last_answer_table_entry
           (Demo.ask (Some "")) Demo.prof1 (Demo.ask (Some "prof1"))).
  left. reflexivity.
Defined.

Lemma copy_test_book_gives_up_after_100_witness :
  exists e,
    Conftest.all_down
      (repeat (Conftest.Copytree "/w/tests/test_course_1"
                 (Conftest.test_book_path "/b")) 99)
      (Conftest.Copytree "/w/tests/test_course_1"
         (Conftest.test_book_path "/b"))
    = Raised e
    /\ Conftest.copy_test_book Conftest.all_down Conftest.sample_isinstance
         "/b" "/w" []
       = (Raised e,
          repeat (Conftest.Copytree "/w/tests/test_course_1"
                    (Conftest.test_book_path "/b")) 100).
Proof.
  apply (copy_test_book_gives_up_after_100
           Conftest.all_down Conftest.sample_isinstance "/b" "/w").
  intros tr. exists (OtherException "FileExistsError").
  split; reflexivity.
Defined.

Lemma copy_test_book_succeeds_at_first_success_witness :
  Conftest.copy_test_book Conftest.third_time_lucky
    Conftest.sample_isinstance "/b" "/w" []
  = (Returned tt,
     repeat (Conftest.Copytree "/w/tests/test_course_1"
               (Conftest.test_book_path "/b")) 3).
Proof.
  apply (copy_test_book_succeeds_at_first_success
           Conftest.third_time_lucky Conftest.sample_isinstance "/b" "/w"
           2 PyNone).
  - lia.
  - intros j Hj. exists (OtherException "FileExistsError").
    destruct j as [|[|j]]; [split; reflexivity | split; reflexivity | lia].
  - reflexivity.
Defined.

Lemma copy_test_book_other_exception_not_retried_witness :
  Conftest.copy_test_book Conftest.interrupted
    Conftest.sample_isinstance "/b" "/w" []
  = (Raised (OtherException "KeyboardInterrupt"),
     [Conftest.Copytree "/w/tests/test_course_1"
        (Conftest.test_book_path "/b")]).
Proof.
  apply (copy_test_book_other_exception_not_retried
           Conftest.interrupted Conftest.sample_isinstance "/b" "/w"
           0 (OtherException "KeyboardInterrupt")).
  - lia.
  - intros j Hj. lia.
  - reflexivity.
  - reflexivity.
Defined.

Lemma wait_for_webserver_goes_on_without_server_witness :
  fst (Conftest.wait_for_webserver Conftest.all_down
         Conftest.sample_isinstance "http://localhost:8080" [])
  = Returned tt.
Proof.
  apply (wait_for_webserver_goes_on_without_server
           Conftest.all_down Conftest.sample_isinstance
           "http://localhost:8080").
  intros tr. exists (OtherException "URLError"). split; reflexivity.
Defined.

Lemma wait_for_webserver_failure_message_witness :
  Conftest.urlopen_calls
    (snd (Conftest.wait_for_webserver Conftest.all_down
            Conftest.sample_isinstance "http://localhost:8080" []))
  = 10.
Proof.
  apply (wait_for_webserver_failure_message
           Conftest.all_down Conftest.sample_isinstance
           "http://localhost:8080").
  vm_compute. repeat (first [left; reflexivity | right]).
Defined.

Lemma bookserver_session_swallows_delete_failures_witness :
  length
    (Conftest.executed
       (snd (Conftest.bookserver_session Conftest.all_down
               Conftest.sample_isinstance false [])))
  = 43.
Proof.
  apply (bookserver_session_swallows_delete_failures
           Conftest.all_down Conftest.sample_isinstance PyNone).
  - reflexivity.
  - intros tr sql e H. injection H as <-. reflexivity.
Defined.

Lemma bookserver_session_truncate_failure_propagates_witness :
  fst (Conftest.bookserver_session Conftest.all_down
         Conftest.sample_isinstance true [])
  = Raised (OtherException "OperationalError").
Proof.
  apply (bookserver_session_truncate_failure_propagates
           Conftest.all_down Conftest.sample_isinstance PyNone
           (OtherException "OperationalError") eq_refl eq_refl)
    with (swallow := PyNone).
  - reflexivity.
  - reflexivity.
Defined.

Lemma create_test_user_needs_course_witness :
  Conftest._create_test_user Conftest.all_up
    [("username", PyStr "test_user_1"); ("password", PyStr "password_1")] []
  = (Raised (OtherException "KeyError"), []).
Proof.
  apply (create_test_user_needs_course Conftest.all_up
           [("username", PyStr "test_user_1");
            ("password", PyStr "password_1")] []).
  reflexivity.
Defined.

Lemma create_test_user_returns_only_created_witness :
  exists course rest user created,
    Conftest.dict_pop "course"
      [("username", PyStr "test_user_1"); ("password", PyStr "password_1");
       ("course", PyStr "test_child_course_1")]
    = Some (course, rest)
    /\ Conftest.all_up [] (Conftest.Call_AuthUserValidator rest)
       = Returned user
    /\ Conftest.all_up [Conftest.Call_AuthUserValidator rest]
         (Conftest.Await_create_user user)
       = Returned created
    /\ truthy created = true
    /\ Conftest.all_up
         [Conftest.Call_AuthUserValidator rest;
          Conftest.Await_create_user user]
         (Conftest.Call_TestAuthUserValidator (("course", course) :: rest))
       = Returned
           (PyObject "TestAuthUserValidator"
              [("course", PyStr "test_child_course_1");
               ("username", PyStr "test_user_1");
               ("password", PyStr "password_1")])
    /\ snd (Conftest._create_test_user Conftest.all_up
              [("username", PyStr "test_user_1");
               ("password", PyStr "password_1");
               ("course", PyStr "test_child_course_1")] [])
       = [Conftest.Call_AuthUserValidator rest;
          Conftest.Await_create_user user;
          Conftest.Call_TestAuthUserValidator (("course", course) :: rest)].
Proof.
  apply (create_test_user_returns_only_created Conftest.all_up).
  reflexivity.
Defined.

Lemma sync_dburl_strips_async_driver_witness :
  Conftest.sync_dburl "postgresql+asyncpg://runestone@localhost/test"
  = "postgresql://runestone@localhost/test".
Proof.
  refine (proj1 (sync_dburl_strips_async_driver
                   "postgresql" "://runestone@localhost/test" _ _));
    cbn [list_ascii_of_string];
    repeat (apply Forall_cons; [discriminate|]); apply Forall_nil.
Defined.
